(** * dxf-editor: the session hook [useDxf] and the selection model of [App]

    A shallow embedding of [frontend/src/hooks/useDxf.ts] and of the
    selection / highlight handlers of [frontend/src/App.tsx].

    The hook keeps eight [useState] cells and one [useRef]; every action is
    an [async] function that writes some cells, awaits a call of the
    [api] object and writes some more cells, with [try]/[catch] around the
    awaited part.  The backend is not part of the frontend sources, so the
    value a call settles to is an argument of the action that issues it:
    every theorem quantifies over what the server answers.  Each action is
    run until its promise settles (the protocol serialises the actions,
    one in flight at a time); the calls it issued are recorded in order. *)

From Stdlib Require Import String Ascii List Bool ZArith QArith Lia.
Import ListNotations.
Close Scope Q_scope.
Open Scope string_scope.
Open Scope list_scope.

(** ** types.ts *)

Module Types.

(** [number] fields that the frontend only passes around. *)
Definition number := Q.

Record LayerInfo := mkLayerInfo {
  layer_name : string;
  layer_color : Z;
  layer_color_name : string;
  layer_entity_count : Z }.

Record ColorInfo := mkColorInfo {
  aci : Z;
  color_name : string;
  hex : string;
  count : Z }.

Record DxfInfo := mkDxfInfo {
  session_id : string;
  filename : string;
  entity_count : Z;
  layers : list LayerInfo;
  colors_used : list ColorInfo }.

(** A value of a [Record<string, unknown>] entry. *)
Inductive JsValue :=
| JsNull
| JsBool (b : bool)
| JsNumber (n : number)
| JsString (s : string).

Record OperationCommand := mkOperationCommand {
  operation : string;
  params : list (string * JsValue);
  confidence : number;
  explanation : string }.

(** A [number] of an answer that the frontend does nothing with but
    print.  It is kept as the text [Number.prototype.toString] gives for
    it ([12], [1e+21], [0.5], [NaN]), which is all that a template
    literal uses of a number. *)
Record PrintedNumber := mkPrintedNumber { toString : string }.

(** [preview_svg?: string]: [None] is the absent field. *)
Record OperationResult := mkOperationResult {
  success : bool;
  affected_count : PrintedNumber;
  message : string;
  preview_svg : option string }.

Record PartInfo := mkPartInfo {
  part_name : string;
  text_handle : string;
  linked_count : Z;
  part_confidence : number;
  linked_handles : option (list string);
  center : option (number * number) }.

Record InterpretResponse := mkInterpretResponse {
  ir_success : bool;
  commands : list OperationCommand;
  ir_message : string;
  used_ai : bool }.

(** The answer of [api.getPreview]. *)
Record Preview := mkPreview { svg_of : string }.

(** The browser [File] handed to [uploadFile]; only its identity matters. *)
Record File := mkFile { file_name : string }.

End Types.
Export Types.

(** [AppState], the string union of types.ts; the values are written
    [St.ready], [St.error], ... so that the hook's [error] cell keeps its
    name. *)
Module St.

Inductive AppState :=
| initial
| loading
| ready
| previewing
| executing
| error.

Definition eq_dec (a b : AppState) : {a = b} + {a <> b}.
Proof. decide equality. Defined.

End St.

(** ** JavaScript values the hook tests or prints *)

Module Js.

(** What a rejected promise carries: an [Error] with its message, or
    some other thrown value. *)
Inductive Thrown :=
| ErrorObject (msg : string)
| OtherValue.

(** How an awaited promise settles. *)
Inductive Settled (A : Type) :=
| Resolved (a : A)
| Rejected (e : Thrown).
Arguments Resolved {A} a.
Arguments Rejected {A} e.

(** [e instanceof Error ? e.message : fallback] *)
Definition message_or (e : Thrown) (fallback : string) : string :=
  match e with
  | ErrorObject m => m
  | OtherValue => fallback
  end.

(** Truthiness of a [string | null | undefined]: the empty string is
    falsy like [null]. *)
Definition truthy (s : option string) : bool :=
  match s with
  | Some EmptyString => false
  | Some _ => true
  | None => false
  end.

(** [s || ''] *)
Definition or_empty (s : option string) : string :=
  match s with
  | Some v => v
  | None => ""
  end.

End Js.
Export Js.

(** ** services/api.ts: the calls the hook issues *)

Module Api.

(** The [context] object [interpretCommand] builds. *)
Record Context := mkContext {
  ctx_layers : list LayerInfo;
  ctx_colors_used : list ColorInfo;
  ctx_parts : list PartInfo;
  ctx_selected_parts : list string }.

Inductive Call :=
| uploadDxf (file : File)
| getPreview (sessionId : string) (highlightHandles : option (list string))
| analyzeParts (sessionId : string)
| previewOperation (sessionId operation : string) (params : list (string * JsValue))
| executeOperation (sessionId operation : string) (params : list (string * JsValue))
| getDownloadUrl (sessionId : string)
| interpretCommand (text sessionId : string) (context : Context)
| deleteSession (sessionId : string)
| undo (sessionId : string)
| redo (sessionId : string).

End Api.

(** ** The cells of [useDxf] *)

Record Hook := mkHook {
  state : St.AppState;
  dxfInfo : option DxfInfo;
  parts : list PartInfo;
  svg : string;
  originalSvg : string;
  pendingCommand : option OperationCommand;
  operationHistory : list OperationResult;
  error : option string;
  sessionIdRef : option string }.

(** The cells as [useState] and [useRef] initialise them. *)
Definition mount : Hook :=
  {| state := St.initial; dxfInfo := None; parts := []; svg := "";
     originalSvg := ""; pendingCommand := None; operationHistory := [];
     error := None; sessionIdRef := None |}.

(** ** A monad for [async] functions

    An action reads and writes the cells, appends the calls it issues to
    the log, and settles: it returns, or it throws.  The cells written
    before a [throw] stay written, as in JavaScript. *)

Record World := mkWorld {
  hook : Hook;
  issued : list Api.Call }.

Definition Async (A : Type) : Type := World -> Settled A * World.

Definition ret {A} (a : A) : Async A := fun w => (Resolved a, w).

Definition bind {A B} (m : Async A) (k : A -> Async B) : Async B :=
  fun w =>
    match m w with
    | (Resolved a, w') => k a w'
    | (Rejected e, w') => (Rejected e, w')
    end.

Definition try_catch {A} (body : Async A) (handler : Thrown -> Async A) : Async A :=
  fun w =>
    match body w with
    | (Resolved a, w') => (Resolved a, w')
    | (Rejected e, w') => handler e w'
    end.

(** [await api.f(...)]: the call is issued, and settles as the server
    decides. *)
Definition await {A} (c : Api.Call) (answer : Settled A) : Async A :=
  fun w => (answer, {| hook := hook w; issued := issued w ++ [c] |}).

(** A call that is issued and not awaited. *)
Definition fire (c : Api.Call) : Async unit :=
  fun w => (Resolved tt, {| hook := hook w; issued := issued w ++ [c] |}).

Definition read {A} (cell : Hook -> A) : Async A :=
  fun w => (Resolved (cell (hook w)), w).

Definition write (f : Hook -> Hook) : Async unit :=
  fun w => (Resolved tt, {| hook := f (hook w); issued := issued w |}).

Declare Scope async_scope.
Delimit Scope async_scope with async.
Notation "x <- m ;; k" := (bind m (fun x => k))
  (at level 61, m at next level, right associativity) : async_scope.
Notation "m ;; k" := (bind m (fun _ => k))
  (at level 61, right associativity) : async_scope.
Open Scope async_scope.

Definition setState (v : St.AppState) : Async unit :=
  write (fun h => {| state := v; dxfInfo := dxfInfo h; parts := parts h;
    svg := svg h; originalSvg := originalSvg h;
    pendingCommand := pendingCommand h;
    operationHistory := operationHistory h; error := error h;
    sessionIdRef := sessionIdRef h |}).

Definition setDxfInfo (v : option DxfInfo) : Async unit :=
  write (fun h => {| state := state h; dxfInfo := v; parts := parts h;
    svg := svg h; originalSvg := originalSvg h;
    pendingCommand := pendingCommand h;
    operationHistory := operationHistory h; error := error h;
    sessionIdRef := sessionIdRef h |}).

Definition setParts (v : list PartInfo) : Async unit :=
  write (fun h => {| state := state h; dxfInfo := dxfInfo h; parts := v;
    svg := svg h; originalSvg := originalSvg h;
    pendingCommand := pendingCommand h;
    operationHistory := operationHistory h; error := error h;
    sessionIdRef := sessionIdRef h |}).

Definition setSvg (v : string) : Async unit :=
  write (fun h => {| state := state h; dxfInfo := dxfInfo h; parts := parts h;
    svg := v; originalSvg := originalSvg h;
    pendingCommand := pendingCommand h;
    operationHistory := operationHistory h; error := error h;
    sessionIdRef := sessionIdRef h |}).

Definition setOriginalSvg (v : string) : Async unit :=
  write (fun h => {| state := state h; dxfInfo := dxfInfo h; parts := parts h;
    svg := svg h; originalSvg := v;
    pendingCommand := pendingCommand h;
    operationHistory := operationHistory h; error := error h;
    sessionIdRef := sessionIdRef h |}).

Definition setPendingCommand (v : option OperationCommand) : Async unit :=
  write (fun h => {| state := state h; dxfInfo := dxfInfo h; parts := parts h;
    svg := svg h; originalSvg := originalSvg h;
    pendingCommand := v;
    operationHistory := operationHistory h; error := error h;
    sessionIdRef := sessionIdRef h |}).

(** [setOperationHistory(prev => f(prev))] *)
Definition setOperationHistory (f : list OperationResult -> list OperationResult)
  : Async unit :=
  write (fun h => {| state := state h; dxfInfo := dxfInfo h; parts := parts h;
    svg := svg h; originalSvg := originalSvg h;
    pendingCommand := pendingCommand h;
    operationHistory := f (operationHistory h); error := error h;
    sessionIdRef := sessionIdRef h |}).

Definition setError (v : option string) : Async unit :=
  write (fun h => {| state := state h; dxfInfo := dxfInfo h; parts := parts h;
    svg := svg h; originalSvg := originalSvg h;
    pendingCommand := pendingCommand h;
    operationHistory := operationHistory h; error := v;
    sessionIdRef := sessionIdRef h |}).

(** [sessionIdRef.current = v] *)
Definition setSessionIdRef (v : option string) : Async unit :=
  write (fun h => {| state := state h; dxfInfo := dxfInfo h; parts := parts h;
    svg := svg h; originalSvg := originalSvg h;
    pendingCommand := pendingCommand h;
    operationHistory := operationHistory h; error := error h;
    sessionIdRef := v |}).

(** The guard [if (!sessionIdRef.current)]: [absent] runs when the ref is
    [null] or the empty string, [present] gets the identifier otherwise. *)
Definition withSession {A} (absent : Async A) (present : string -> Async A)
  : Async A :=
  fun w =>
    match sessionIdRef (hook w) with
    | Some sid => if truthy (Some sid) then present sid w else absent w
    | None => absent w
    end.

(** ** hooks/useDxf.ts: the actions

    Each action takes, after its own arguments, the value every call it may
    await settles to. *)

Module UseDxf.

(** The unmount cleanup of the first [useEffect]; the rejection of
    [deleteSession] is dropped by [.catch(() => { })]. *)
Definition cleanup (released : Settled unit) : Async unit :=
  withSession (ret tt)
    (fun sid => try_catch (await (Api.deleteSession sid) released)
                          (fun _ => ret tt)).

Definition uploadFile (file : File) (uploaded : Settled DxfInfo)
    (fetched : Settled Preview) : Async unit :=
  setState St.loading ;;
  setError None ;;
  try_catch
    (info <- await (Api.uploadDxf file) uploaded ;;
     setDxfInfo (Some info) ;;
     setSessionIdRef (Some (session_id info)) ;;
     preview <- await (Api.getPreview (session_id info) None) fetched ;;
     setSvg (svg_of preview) ;;
     setOriginalSvg (svg_of preview) ;;
     fire (Api.analyzeParts (session_id info)) ;;
     setState St.ready)
    (fun e =>
       setError (Some (message_or e "ファイルのアップロードに失敗しました")) ;;
       setState St.error).

(** The [.then(partsdata => setParts(partsdata)).catch(console.error)]
    of the call [uploadFile] fires and does not await: it runs whenever
    the analysis settles. *)
Definition analyzePartsSettled (analysed : Settled (list PartInfo))
  : Async unit :=
  match analysed with
  | Resolved partsdata => setParts partsdata
  | Rejected _ => ret tt
  end.

(** Declared after [interpretCommand] in the source, which reaches it
    through the closure. *)
Definition previewOperation (command : OperationCommand)
    (previewed : Settled OperationResult) : Async unit :=
  withSession (ret tt) (fun sid =>
    setPendingCommand (Some command) ;;
    setState St.previewing ;;
    setError None ;;
    try_catch
      (result <- await (Api.previewOperation sid (operation command)
                                             (params command)) previewed ;;
       (if truthy (preview_svg result)
        then setSvg (or_empty (preview_svg result))
        else ret tt) ;;
       setError (Some (toString (affected_count result)
                       ++ "個のエンティティが影響を受けます")%string))
      (fun e =>
         setError (Some (message_or e "プレビューの生成に失敗しました")) ;;
         setState St.ready)).

(** [if (!result.success || result.commands.length === 0)] is the
    rejecting branch; past it [result.commands[0]] is the head. *)
Definition interpretCommand (text : string) (selectedParts : list string)
    (interpreted : Settled InterpretResponse)
    (previewed : Settled OperationResult) : Async unit :=
  withSession (setError (Some "ファイルが読み込まれていません")) (fun sid =>
    setState St.loading ;;
    setError None ;;
    try_catch
      (info <- read dxfInfo ;;
       known <- read parts ;;
       let context :=
         {| Api.ctx_layers := match info with Some i => layers i | None => [] end;
            Api.ctx_colors_used :=
              match info with Some i => colors_used i | None => [] end;
            Api.ctx_parts := known;
            Api.ctx_selected_parts := selectedParts |} in
       result <- await (Api.interpretCommand text sid context) interpreted ;;
       match commands result with
       | command :: _ =>
           if negb (ir_success result)
           then setError (Some (ir_message result)) ;; setState St.ready
           else setPendingCommand (Some command) ;;
                previewOperation command previewed
       | [] => setError (Some (ir_message result)) ;; setState St.ready
       end)
      (fun e =>
         setError (Some (message_or e "コマンドの解釈に失敗しました")) ;;
         setState St.ready)).

Definition executeOperation (committed : Settled OperationResult)
  : Async unit :=
  withSession (ret tt) (fun sid =>
    pending <- read pendingCommand ;;
    match pending with
    | None => ret tt
    | Some command =>
        setState St.executing ;;
        setError None ;;
        try_catch
          (result <- await (Api.executeOperation sid (operation command)
                                                 (params command)) committed ;;
           (if truthy (preview_svg result)
            then setSvg (or_empty (preview_svg result))
            else ret tt) ;;
           setOperationHistory (fun prev => prev ++ [result]) ;;
           setPendingCommand None ;;
           setError None ;;
           setState St.ready)
          (fun e =>
             setError (Some (message_or e "操作の実行に失敗しました")) ;;
             setState St.ready)
    end).

Definition cancelOperation (fetched : Settled Preview) : Async unit :=
  withSession (ret tt) (fun sid =>
    setPendingCommand None ;;
    setError None ;;
    try_catch
      (preview <- await (Api.getPreview sid None) fetched ;;
       setSvg (svg_of preview))
      (fun _ => ret tt) ;;
    setState St.ready).

(** [window.open(api.getDownloadUrl(sessionId), '_blank')]: no cell
    changes. *)
Definition downloadFile : Async unit :=
  withSession (ret tt) (fun sid => fire (Api.getDownloadUrl sid)).

Definition undo (undone : Settled OperationResult) : Async unit :=
  withSession (ret tt) (fun sid =>
    setState St.executing ;;
    try_catch
      (result <- await (Api.undo sid) undone ;;
       setSvg (or_empty (preview_svg result)) ;;
       setOperationHistory (fun prev => prev ++ [result]) ;;
       setError (Some "元に戻しました") ;;
       setState St.ready)
      (fun e =>
         setError (Some (message_or e "Undoに失敗しました")) ;;
         setState St.ready)).

Definition redo (redone : Settled OperationResult) : Async unit :=
  withSession (ret tt) (fun sid =>
    setState St.executing ;;
    try_catch
      (result <- await (Api.redo sid) redone ;;
       setSvg (or_empty (preview_svg result)) ;;
       setOperationHistory (fun prev => prev ++ [result]) ;;
       setError (Some "やり直しました") ;;
       setState St.ready)
      (fun e =>
         setError (Some (message_or e "Redoに失敗しました")) ;;
         setState St.ready)).

Definition reset (released : Settled unit) : Async unit :=
  withSession (ret tt)
    (fun sid => try_catch (await (Api.deleteSession sid) released)
                          (fun _ => ret tt)) ;;
  setSessionIdRef None ;;
  setDxfInfo None ;;
  setParts [] ;;
  setSvg "" ;;
  setPendingCommand None ;;
  setOperationHistory (fun _ => []) ;;
  setError None ;;
  setState St.initial.

End UseDxf.

(** ** App.tsx: selection, hover and the highlight effect *)

Module App.

(** [parts.find(p => p.part_name === partName)] *)
Definition findPart (parts : list PartInfo) (partName : string)
  : option PartInfo :=
  find (fun p => String.eqb (part_name p) partName) parts.

(** The anchor handle of a part, then its linked handles when the
    optional field is there. *)
Definition handlesOf (part : PartInfo) : list string :=
  text_handle part ::
  match linked_handles part with
  | Some linked => linked
  | None => []
  end.

(** The [forEach] of the highlight effect, pushing onto
    [selectedHandles]. *)
Definition selectedHandles (parts : list PartInfo)
    (selectedParts : list string) : list string :=
  fold_left
    (fun pushed partName =>
       match findPart parts partName with
       | Some part =>
           (pushed ++ [text_handle part]) ++
           match linked_handles part with
           | Some linked => linked
           | None => []
           end
       | None => pushed
       end)
    selectedParts [].

(** [Set.prototype.add] on a set kept in insertion order. *)
Definition Set_add (s : list string) (x : string) : list string :=
  if existsb (String.eqb x) s then s else s ++ [x].

(** [[...new Set(xs)]] *)
Definition newSet (xs : list string) : list string :=
  fold_left Set_add xs [].

(** What the effect hands to [setHighlightedHandles]. *)
Definition highlightedHandles (parts : list PartInfo)
    (selectedParts hoverHandles : list string) : list string :=
  newSet (selectedHandles parts selectedParts ++ hoverHandles).

(** The new [hoverHandles]; no branch is taken, and the cell keeps its
    value, when the part is not found. *)
Definition handleHoverPart (parts : list PartInfo) (partName : string)
    (hoverHandles : list string) : list string :=
  match findPart parts partName with
  | Some part =>
      match linked_handles part with
      | Some linked => text_handle part :: linked
      | None => [text_handle part]
      end
  | None => hoverHandles
  end.

Definition handleLeavePart : list string := [].

(** The updater given to [setSelectedParts]. *)
Definition handleTogglePartSelection (partName : string)
    (prev : list string) : list string :=
  if existsb (String.eqb partName) prev
  then filter (fun p => negb (String.eqb p partName)) prev
  else prev ++ [partName].

Definition handleSelectAll (parts : list PartInfo) : list string :=
  map part_name parts.

Definition handleClearSelection : list string := [].

(** The command [handleDeletePart] builds and previews. *)
Definition deletePartCommand (partName : string) : OperationCommand :=
  {| operation := "delete_part";
     params := [("part_name", JsString partName)];
     confidence := 1%Q;
     explanation := ("部材「" ++ partName ++ "」を削除します")%string |}.

Definition handleDeletePart (partName : string)
    (previewed : Settled OperationResult) : Async unit :=
  UseDxf.previewOperation (deletePartCommand partName) previewed.

End App.

(** ** Running the hook *)

(** What the user or the network can make the mounted hook do. *)
Inductive Event :=
| UploadFile (file : File) (uploaded : Settled DxfInfo) (fetched : Settled Preview)
| AnalyzePartsSettled (analysed : Settled (list PartInfo))
| InterpretCommand (text : string) (selectedParts : list string)
    (interpreted : Settled InterpretResponse) (previewed : Settled OperationResult)
| PreviewOperation (command : OperationCommand) (previewed : Settled OperationResult)
| ExecuteOperation (committed : Settled OperationResult)
| CancelOperation (fetched : Settled Preview)
| DownloadFile
| Undo (undone : Settled OperationResult)
| Redo (redone : Settled OperationResult)
| ResetSession (released : Settled unit).

Definition perform (ev : Event) : Async unit :=
  match ev with
  | UploadFile file uploaded fetched => UseDxf.uploadFile file uploaded fetched
  | AnalyzePartsSettled analysed => UseDxf.analyzePartsSettled analysed
  | InterpretCommand text selectedParts interpreted previewed =>
      UseDxf.interpretCommand text selectedParts interpreted previewed
  | PreviewOperation command previewed => UseDxf.previewOperation command previewed
  | ExecuteOperation committed => UseDxf.executeOperation committed
  | CancelOperation fetched => UseDxf.cancelOperation fetched
  | DownloadFile => UseDxf.downloadFile
  | Undo undone => UseDxf.undo undone
  | Redo redone => UseDxf.redo redone
  | ResetSession released => UseDxf.reset released
  end.

(** The cells once the action has settled, and the calls it issued. *)
Definition after (m : Async unit) (h : Hook) : Hook :=
  hook (snd (m {| hook := h; issued := [] |})).

Definition callsOf (m : Async unit) (h : Hook) : list Api.Call :=
  issued (snd (m {| hook := h; issued := [] |})).

Definition step (h : Hook) (ev : Event) : Hook := after (perform ev) h.

Definition run (evs : list Event) (h : Hook) : Hook := fold_left step evs h.

(** The states the hook can be in between two actions. *)
Inductive Reachable : Hook -> Prop :=
| reach_mount : Reachable mount
| reach_step h ev : Reachable h -> Reachable (step h ev).

(** A live session: the ref holds a non-empty identifier. *)
Definition liveSession (h : Hook) (sid : string) : Prop :=
  sessionIdRef h = Some sid /\ truthy (Some sid) = true.

Definition isPreviewCall (c : Api.Call) : bool :=
  match c with
  | Api.previewOperation _ _ _ => true
  | _ => false
  end.

(** A run that keeps the log of the calls. *)
Definition runWorld (evs : list Event) (w : World) : World :=
  fold_left (fun w ev => snd (perform ev w)) evs w.

Definition previewEvents
    (previews : list (OperationCommand * Settled OperationResult))
  : list Event :=
  map (fun p => PreviewOperation (fst p) (snd p)) previews.

(** The previews of a list, one after the other, each with the answer
    the server gave it. *)
Definition runPreviews
    (previews : list (OperationCommand * Settled OperationResult)) (h : Hook)
  : Hook :=
  run (previewEvents previews) h.

(** ** A session used in the examples *)

Module Sample.

Definition file : File := {| file_name := "plan.dxf" |}.

Definition info : DxfInfo :=
  {| session_id := "s1"; filename := "plan.dxf"; entity_count := 40;
     layers := []; colors_used := [] |}.

Definition view : Preview := {| svg_of := "<svg>committed</svg>" |}.

Definition command : OperationCommand :=
  {| operation := "delete_by_color";
     params := [("color", JsString "yellow")];
     confidence := (9 # 10)%Q;
     explanation := "delete yellow lines" |}.

Definition result : OperationResult :=
  {| success := true; affected_count := {| toString := "12" |};
     message := "done";
     preview_svg := Some "<svg>preview</svg>" |}.

Definition bare : OperationResult :=
  {| success := true; affected_count := {| toString := "0" |};
     message := "done";
     preview_svg := None |}.

Definition networkError : Thrown := ErrorObject "Network Error".

(** After a successful upload. *)
Definition opened : Hook :=
  run [UploadFile file (Resolved info) (Resolved view)] mount.

(** A preview is on screen. *)
Definition staged : Hook :=
  run [PreviewOperation command (Resolved result)] opened.

Definition df01 : PartInfo :=
  {| part_name := "DF-01"; text_handle := "DF-01-anchor"; linked_count := 2;
     part_confidence := 1%Q; linked_handles := Some ["e1"; "e2"];
     center := None |}.

Definition df02 : PartInfo :=
  {| part_name := "DF-02"; text_handle := "DF-02-anchor"; linked_count := 1;
     part_confidence := 1%Q; linked_handles := Some ["e3"];
     center := None |}.

End Sample.

(** The handles the highlight effect pushes for one selected name. *)
Definition pushedFor (index : list PartInfo) (partName : string)
  : list string :=
  match App.findPart index partName with
  | Some part => App.handlesOf part
  | None => []
  end.



(** ** Invariants of the cells between two actions *)

(** While a preview is on screen a command is staged and the session is
    live. *)
Definition stagedWhilePreviewing (h : Hook) : Prop :=
  state h = St.previewing ->
  pendingCommand h <> None /\ truthy (sessionIdRef h) = true.

(** Before an upload and after a reset nothing is staged and no session
    is held. *)
Definition nothingWhileInitial (h : Hook) : Prop :=
  state h = St.initial -> pendingCommand h = None /\ sessionIdRef h = None.

(** ** More on the log and the cells *)

(** The session a call is made for; the upload creates one and names
    none. *)
Definition callSession (c : Api.Call) : option string :=
  match c with
  | Api.uploadDxf _ => None
  | Api.getPreview sid _ => Some sid
  | Api.analyzeParts sid => Some sid
  | Api.previewOperation sid _ _ => Some sid
  | Api.executeOperation sid _ _ => Some sid
  | Api.getDownloadUrl sid => Some sid
  | Api.interpretCommand _ sid _ => Some sid
  | Api.deleteSession sid => Some sid
  | Api.undo sid => Some sid
  | Api.redo sid => Some sid
  end.

Definition isMutatingCall (c : Api.Call) : bool :=
  match c with
  | Api.executeOperation _ _ _ | Api.undo _ | Api.redo _ => true
  | _ => false
  end.

(** No action is left half-way: between two actions the state is never
    [loading] or [executing]. *)
Definition settledState (h : Hook) : Prop :=
  state h <> St.loading /\ state h <> St.executing.

(** The document info on screen is the one of the session in the ref. *)
Definition infoMatchesSession (h : Hook) : Prop :=
  match dxfInfo h with
  | Some info => sessionIdRef h = Some (session_id info)
  | None => sessionIdRef h = None
  end.

(** ** components/CommandInput.tsx *)

Module CommandInput.

Section Trim.

(** [String.prototype.trim], the browser's. *)
Variable trim : string -> string.

(** [handleSubmit]: the text handed to [onExecute] when it is called, and
    the text cell afterwards.  [disabled] is an optional prop. *)
Definition handleSubmit (text : string) (isLoading : bool)
    (disabled : option bool) : option string * string :=
  if truthy (Some (trim text)) && negb isLoading
     && negb (match disabled with Some d => d | None => false end)
  then (Some text, "")
  else (None, text).

(** The [disabled] attribute of the send button. *)
Definition sendDisabled (text : string) (isLoading : bool)
    (disabled : option bool) : bool :=
  negb (truthy (Some (trim text))) || isLoading
  || match disabled with Some d => d | None => false end.

End Trim.

End CommandInput.

(** ** components/EntityPanel.tsx *)

Module EntityPanel.

(** The table of [getColorHex]. *)
Definition colors : list (Z * string) :=
  [(1, "#FF0000"); (2, "#FFFF00"); (3, "#00FF00"); (4, "#00FFFF");
   (5, "#0000FF"); (6, "#FF00FF"); (7, "#FFFFFF"); (8, "#808080");
   (9, "#C0C0C0")]%Z.

(** [colors[aci]] *)
Definition colorAt (aci : Z) : option string :=
  match find (fun entry => Z.eqb (fst entry) aci) colors with
  | Some entry => Some (snd entry)
  | None => None
  end.

(** [colors[aci] || '#808080'] *)
Definition getColorHex (aci : Z) : string :=
  if truthy (colorAt aci) then or_empty (colorAt aci) else "#808080".

(** The background of a layer's indicator. *)
Definition layerIndicator (layer : LayerInfo) : string :=
  if Z.eqb (layer_color layer) 7 then "#fff"
  else getColorHex (layer_color layer).

(** [selectedParts.includes(part.part_name)], the checkbox of a row. *)
Definition isSelected (selectedParts : list string) (part : PartInfo) : bool :=
  existsb (String.eqb (part_name part)) selectedParts.

End EntityPanel.

(** ** components/SuggestedCommands.tsx *)

Module SuggestedCommands.

Record Rule := mkRule {
  pattern : string;
  description : string }.

(** A rule or an example with its [type] tag. *)
Record Chip := mkChip {
  chip_pattern : string;
  chip_description : string;
  chip_type : string }.

(** The [rules] cell once [api.getRules] has settled: a rejection is
    logged and the cell keeps its initial empty array. *)
Definition fetchRules (fetched : Settled (list Rule)) : list Rule :=
  match fetched with
  | Resolved rules => rules
  | Rejected _ => []
  end.

(** The double quote character of the first example's description. *)
Definition dquote : string := String (ascii_of_nat 34) EmptyString.

Definition defaultExamples : list Rule :=
  [ {| pattern := "DF-01を削除";
       description := ("部材 " ++ dquote ++ "DF-01" ++ dquote ++ " を削除")%string |};
    {| pattern := "右上の部品を消して";
       description := "配置から推論して削除 (AI)" |} ].

Definition allCommands (rules : list Rule) : list Chip :=
  map (fun r => {| chip_pattern := pattern r;
                   chip_description := description r;
                   chip_type := "rule" |}) rules
  ++ map (fun e => {| chip_pattern := pattern e;
                      chip_description := description e;
                      chip_type := "example" |}) defaultExamples.

(** [cmd.description || cmd.pattern] *)
Definition label (cmd : Chip) : string :=
  if truthy (Some (chip_description cmd)) then chip_description cmd
  else chip_pattern cmd.

(** The class next to [suggestion-chip]. *)
Definition chipClass (cmd : Chip) : string :=
  if String.eqb (chip_type cmd) "rule" then "rule" else "ai".

(** [onClick={() => onSelect(cmd.pattern)}] *)
Definition onClick (cmd : Chip) : string := chip_pattern cmd.

End SuggestedCommands.

(** ** App.tsx: what is rendered in which state *)

Module AppView.

(** The upload box is rendered in [initial], the editor otherwise. *)
Definition showsEditor (h : Hook) : bool :=
  if St.eq_dec (state h) St.initial then false else true.

(** [{dxfInfo && (...)}]: compare, download, undo, redo and reset. *)
Definition showsHeaderActions (h : Hook) : bool :=
  match dxfInfo h with Some _ => true | None => false end.

(** [{state === 'previewing' && (...)}]: the confirm and cancel
    buttons. *)
Definition showsConfirm (h : Hook) : bool :=
  showsEditor h && if St.eq_dec (state h) St.previewing then true else false.

(** The props [App] gives to [CommandInput]. *)
Definition commandInputIsLoading (h : Hook) : bool :=
  (if St.eq_dec (state h) St.loading then true else false)
  || (if St.eq_dec (state h) St.executing then true else false).

Definition commandInputDisabled (h : Hook) : option bool :=
  Some (if St.eq_dec (state h) St.previewing then true else false).

(** A submit of the command box: the arguments [interpretCommand] is
    called with, if it is called. *)
Definition submitCommand (trim : string -> string) (h : Hook)
    (text : string) (selectedParts : list string)
  : option (string * list string) :=
  if showsEditor h then
    match fst (CommandInput.handleSubmit trim text (commandInputIsLoading h)
                 (commandInputDisabled h)) with
    | Some sent => Some (sent, selectedParts)
    | None => None
    end
  else None.


End AppView.

(** ** Case analysis on the cells *)

(** Splits the session ref into [null], the empty string and a live
    identifier, and the staged command into absent and present. *)
Ltac cells h :=
  destruct h as [st di ps sv osv pc oh er [[|c0 sid0]|]]; try destruct pc.

(** Splits an [OperationResult] by the truthiness of its view. *)
Ltac views r := destruct r as [? ? ? [[|? ?]|]].

(** Runs the monad; the message texts stay folded. *)
Ltac compute_hook := cbv -[String.append] in *.

(** Replaces a live session by its shape, a first character and a rest,
    and opens the cells. *)
Ltac live H h :=
  let R := fresh "R" in
  let T := fresh "T" in
  destruct H as [R T];
  match type of T with
  | truthy (Some ?s) = true => destruct s; [discriminate T|]; clear T
  end;
  destruct h as [st di ps sv osv pc oh er ref]; cbn in R; subst ref.

(** * Properties *)


(** ** Scenarios of the specification, by evaluation *)

Example upload_then_commit :
  let h := run [InterpretCommand "delete yellow lines" []
                  (Resolved {| ir_success := true; commands := [Sample.command];
                               ir_message := ""; used_ai := true |})
                  (Resolved Sample.result);
                ExecuteOperation (Resolved Sample.result)] Sample.opened in
  length (operationHistory h) = 1 /\ state h = St.ready /\
  pendingCommand h = None.
Proof. repeat split. Qed.

Example preview_notice :
  error Sample.staged = Some "12個のエンティティが影響を受けます"
  /\ state Sample.staged = St.previewing
  /\ svg Sample.staged = "<svg>preview</svg>".
Proof. repeat split. Qed.

Example hover_scenario :
  App.highlightedHandles [Sample.df01; Sample.df02] ["DF-02"]
    (App.handleHoverPart [Sample.df01; Sample.df02] "DF-01" [])
  = ["DF-02-anchor"; "e3"; "DF-01-anchor"; "e1"; "e2"]
  /\ App.highlightedHandles [Sample.df01; Sample.df02] ["DF-02"]
       App.handleLeavePart
     = ["DF-02-anchor"; "e3"].
Proof. split; reflexivity. Qed.

(** ** The invariants *)

Lemma liveSession_inv h sid :
  liveSession h sid ->
  exists c s, sid = String c s /\ sessionIdRef h = Some (String c s).
Proof.
  intros [Href Ht]. destruct sid as [|c s]; [discriminate|].
  exists c, s. split; [reflexivity|exact Href].
Qed.

Lemma step_stagedWhilePreviewing h ev :
  stagedWhilePreviewing h -> stagedWhilePreviewing (step h ev).
Proof.
  destruct ev as [f [i|e] [v|e']|[p|e]|t sel [[ok [|c cs] m ai]|e] [r|e']
                 |c [r|e]|[r|e]|[v|e]| |[r|e]|[r|e]|[u|e]];
    cells h; try destruct ok; try views r; compute_hook;
    try (intros H Hs; specialize (H Hs));
    intros; try discriminate; try (split; [congruence|reflexivity]);
    try (split; [congruence|tauto]); try tauto.
Qed.

Lemma step_nothingWhileInitial h ev :
  nothingWhileInitial h -> nothingWhileInitial (step h ev).
Proof.
  destruct ev as [f [i|e] [v|e']|[p|e]|t sel [[ok [|c cs] m ai]|e] [r|e']
                 |c [r|e]|[r|e]|[v|e]| |[r|e]|[r|e]|[u|e]];
    cells h; try destruct ok; try views r; compute_hook;
    try (intros H Hs; specialize (H Hs));
    intros; try discriminate; try tauto; try (split; reflexivity).
Qed.

Lemma reachable_invariants h :
  Reachable h -> stagedWhilePreviewing h /\ nothingWhileInitial h.
Proof.
  induction 1 as [|h ev _ [IH1 IH2]].
  - split; intro Hs; [discriminate Hs|split; reflexivity].
  - split; [apply step_stagedWhilePreviewing|apply step_nothingWhileInitial];
      assumption.
Qed.

Lemma reachable_run evs h : Reachable h -> Reachable (run evs h).
Proof.
  revert h. induction evs as [|ev evs IH]; intros h Hh; [exact Hh|].
  apply IH. apply reach_step. exact Hh.
Qed.

Lemma reachable_opened : Reachable Sample.opened.
Proof. apply reachable_run. apply reach_mount. Qed.

Lemma reachable_staged : Reachable Sample.staged.
Proof. apply reachable_run. apply reachable_opened. Qed.

(** ** The staged command *)

(** C1, as stated, fails: a preview whose request is rejected leaves the
    hook in [ready] with the command still staged, and so does a commit
    whose request is rejected. *)
Lemma pending_command_outside_previewing :
  let failedPreview :=
    run [UploadFile Sample.file (Resolved Sample.info) (Resolved Sample.view);
         PreviewOperation Sample.command (Rejected Sample.networkError)] mount in
  let failedCommit :=
    run [ExecuteOperation (Rejected Sample.networkError)] Sample.staged in
  (Reachable failedPreview /\ pendingCommand failedPreview <> None
   /\ state failedPreview <> St.previewing)
  /\ (Reachable failedCommit /\ pendingCommand failedCommit <> None
      /\ state failedCommit <> St.previewing).
Proof.
  split; (split; [apply reachable_run; first [apply reach_mount
                                             |apply reachable_staged]|]);
    split; discriminate.
Qed.

(** C1, amended: between two actions, each one settled, whenever the
    state is [previewing] a command is staged; a commit whose call
    resolves, a cancel with a live session and a reset clear the staged
    command, and an interpretation that yields a command stages that
    command in place of the old one.  The staged command is not confined
    to [previewing]: a preview or a commit whose call is rejected returns
    to [ready] with the command still staged, and an interpretation that
    is rejected or yields no command leaves it as it was. *)
Theorem pending_command_invariant h :
  Reachable h ->
  (state h = St.previewing -> pendingCommand h <> None)
  /\ (forall sid command result,
         liveSession h sid -> pendingCommand h = Some command ->
         pendingCommand (after (UseDxf.executeOperation (Resolved result)) h)
         = None)
  /\ (forall sid fetched,
         liveSession h sid ->
         pendingCommand (after (UseDxf.cancelOperation fetched) h) = None)
  /\ (forall released,
         pendingCommand (after (UseDxf.reset released) h) = None)
  /\ (forall sid text selectedParts command others msg ai previewed,
         liveSession h sid ->
         pendingCommand
           (after (UseDxf.interpretCommand text selectedParts
                     (Resolved {| ir_success := true;
                                  commands := command :: others;
                                  ir_message := msg; used_ai := ai |})
                     previewed) h)
         = Some command)
  /\ (forall sid command e,
         liveSession h sid ->
         let h' := after (UseDxf.previewOperation command (Rejected e)) h in
         state h' = St.ready /\ pendingCommand h' = Some command)
  /\ (forall sid command e,
         liveSession h sid -> pendingCommand h = Some command ->
         let h' := after (UseDxf.executeOperation (Rejected e)) h in
         state h' = St.ready /\ pendingCommand h' = Some command)
  /\ (forall text selectedParts interpreted previewed,
         match interpreted with
         | Resolved result => ir_success result = false \/ commands result = []
         | Rejected _ => True
         end ->
         pendingCommand
           (after (UseDxf.interpretCommand text selectedParts interpreted
                     previewed) h)
         = pendingCommand h).
Proof.
  intro Hr. destruct (reachable_invariants h Hr) as [Hp _].
  split; [intro Hs; exact (proj1 (Hp Hs))|].
  split; [|split; [|split; [|split; [|split; [|split]]]]].
  - intros sid command result H Hc. live H h. cbn in Hc. subst pc.
    views result; reflexivity.
  - intros sid [v|e] H; live H h; reflexivity.
  - intros [u|e]; cells h; reflexivity.
  - intros sid text sel command others msg ai [r|e] H; live H h;
      try views r; reflexivity.
  - intros sid command e H. live H h. split; reflexivity.
  - intros sid command e H Hc. live H h. cbn in Hc. subst pc.
    split; reflexivity.
  - intros text sel interpreted previewed Hrej.
    destruct interpreted as [[[|] [|c cs] m ai]|e]; cells h; cbn in Hrej |- *;
      try reflexivity; destruct Hrej as [Hrej|Hrej]; discriminate Hrej.
Qed.

Lemma pending_command_invariant_witness :
  Reachable Sample.staged
  /\ state Sample.staged = St.previewing
  /\ pendingCommand Sample.staged <> None
  /\ liveSession Sample.staged "s1"
  /\ pendingCommand Sample.staged = Some Sample.command
  /\ pendingCommand
       (after (UseDxf.executeOperation (Rejected Sample.networkError))
              Sample.staged)
     = Some Sample.command.
Proof.
  assert (H : liveSession Sample.staged "s1") by (split; reflexivity).
  destruct (pending_command_invariant Sample.staged reachable_staged)
    as (Hprev & _ & _ & _ & _ & _ & Hcommit & _).
  split; [exact reachable_staged|].
  split; [reflexivity|].
  split; [apply Hprev; reflexivity|].
  split; [exact H|]. split; [reflexivity|].
  exact (proj2 (Hcommit "s1" Sample.command Sample.networkError H eq_refl)).
Defined.

(** A rejected interpretation, or one that yields no command, leaves the
    staged command as it was. *)
Lemma rejected_interpretation_keeps_command h text selectedParts interpreted previewed :
  match interpreted with
  | Resolved result => ir_success result = false \/ commands result = []
  | Rejected _ => True
  end ->
  pendingCommand
    (after (UseDxf.interpretCommand text selectedParts interpreted previewed) h)
  = pendingCommand h.
Proof.
  destruct interpreted as [[[|] [|c cs] m ai]|e]; cells h; cbn;
    intros H; try reflexivity; destruct H as [H|H]; discriminate.
Qed.

(** C3, as stated, fails: after a preview whose request is rejected the
    command is still staged, and [executeOperation] sends it for commit. *)
Lemma failed_preview_then_commit_is_sent :
  let h := after (UseDxf.previewOperation Sample.command
                    (Rejected Sample.networkError)) Sample.opened in
  state h = St.ready
  /\ pendingCommand h = Some Sample.command
  /\ pendingCommand h <> None
  /\ callsOf (UseDxf.executeOperation (Resolved Sample.result)) h
     = [Api.executeOperation "s1" "delete_by_color"
          [("color", JsString "yellow")]]
  /\ callsOf (UseDxf.executeOperation (Resolved Sample.result)) h <> []
  /\ length (operationHistory
               (after (UseDxf.executeOperation (Resolved Sample.result)) h))
     = 1.
Proof. repeat split; discriminate. Qed.

(** C3, amended: when the preview call is rejected the state returns to
    [ready] and the message is recorded, and the command stays staged, so
    a following [executeOperation] issues the commit call for it; when
    the preview call resolves, also with [success = false] in its answer,
    which the hook does not read, the state stays [previewing] with the
    command staged and the count in the notice; with no staged command
    [executeOperation] issues no call and changes no cell. *)
Theorem failed_preview_keeps_command h sid command :
  liveSession h sid ->
  (forall e,
      let h' := after (UseDxf.previewOperation command (Rejected e)) h in
      state h' = St.ready
      /\ error h' = Some (message_or e "プレビューの生成に失敗しました")
      /\ pendingCommand h' = Some command
      /\ forall committed,
           callsOf (UseDxf.executeOperation committed) h'
           = [Api.executeOperation sid (operation command) (params command)])
  /\ (forall result,
        let h' := after (UseDxf.previewOperation command (Resolved result)) h in
        state h' = St.previewing
        /\ error h' = Some (toString (affected_count result)
                            ++ "個のエンティティが影響を受けます")%string
        /\ pendingCommand h' = Some command
        /\ forall committed,
             callsOf (UseDxf.executeOperation committed) h'
             = [Api.executeOperation sid (operation command) (params command)])
  /\ (forall committed w,
        pendingCommand (hook w) = None ->
        UseDxf.executeOperation committed w = (Resolved tt, w)).
Proof.
  intro H. live H h. split; [|split].
  - intro e. cbn zeta.
    split; [reflexivity|]. split; [reflexivity|]. split; [reflexivity|].
    intros [r|e']; try views r; reflexivity.
  - intro result. cbn zeta. views result;
      (split; [reflexivity|]; split; [reflexivity|]; split; [reflexivity|];
       intros [r|e']; try views r; reflexivity).
  - intros committed [[st' di' ps' sv' osv' pc' oh' er' [[|c' s']|]] log] Hn;
      cbn in Hn; subst pc'; reflexivity.
Qed.

Lemma failed_preview_keeps_command_witness :
  liveSession Sample.opened "s1"
  /\ pendingCommand
       (after (UseDxf.previewOperation Sample.command
                 (Rejected Sample.networkError)) Sample.opened)
     = Some Sample.command
  /\ state
       (after (UseDxf.previewOperation Sample.command
                 (Resolved {| success := false;
                              affected_count := {| toString := "0" |};
                              message := "no such colour";
                              preview_svg := None |})) Sample.opened)
     = St.previewing.
Proof.
  assert (H : liveSession Sample.opened "s1") by (split; reflexivity).
  destruct (failed_preview_keeps_command Sample.opened "s1" Sample.command H)
    as (Hrej & Hres & _).
  split; [exact H|].
  split; [exact (proj1 (proj2 (proj2 (Hrej Sample.networkError))))|].
  exact (proj1 (Hres {| success := false;
                        affected_count := {| toString := "0" |};
                        message := "no such colour";
                        preview_svg := None |})).
Defined.

(** C4, as stated, fails: a commit whose request is rejected leaves the
    command staged. *)
Lemma failed_commit_not_cleared :
  let h := after (UseDxf.executeOperation (Rejected Sample.networkError))
                 Sample.staged in
  pendingCommand h = Some Sample.command /\ pendingCommand h <> None
  /\ state h = St.ready.
Proof. repeat split; discriminate. Qed.

(** C4, amended: when the commit call is rejected the staged command is
    left as it was, the message is recorded, the state returns to [ready],
    the history and the view are unchanged, and the commit call was issued
    once. *)
Theorem failed_commit_keeps_command h sid command e :
  liveSession h sid ->
  pendingCommand h = Some command ->
  let h' := after (UseDxf.executeOperation (Rejected e)) h in
  pendingCommand h' = Some command
  /\ error h' = Some (message_or e "操作の実行に失敗しました")
  /\ state h' = St.ready
  /\ operationHistory h' = operationHistory h
  /\ svg h' = svg h
  /\ callsOf (UseDxf.executeOperation (Rejected e)) h
     = [Api.executeOperation sid (operation command) (params command)].
Proof.
  intros H Hc. live H h. cbn in Hc. subst pc. repeat split.
Qed.

Lemma failed_commit_keeps_command_witness :
  liveSession Sample.staged "s1"
  /\ pendingCommand Sample.staged = Some Sample.command
  /\ callsOf (UseDxf.executeOperation (Rejected Sample.networkError))
       Sample.staged
     = [Api.executeOperation "s1" "delete_by_color"
          [("color", JsString "yellow")]].
Proof.
  assert (H : liveSession Sample.staged "s1") by (split; reflexivity).
  split; [exact H|]. split; [reflexivity|].
  apply (failed_commit_keeps_command Sample.staged "s1" Sample.command
           Sample.networkError H eq_refl).
Defined.

(** ** The log *)

(** An action appends to the log and never reads it. *)
Lemma perform_log ev h log :
  snd (perform ev {| hook := h; issued := log |})
  = {| hook := after (perform ev) h;
       issued := log ++ callsOf (perform ev) h |}.
Proof.
  destruct ev as [f [i|e] [v|e']|[p|e]|t sel [[[|] [|c cs] m ai]|e] [r|e']
                 |c [r|e]|[r|e]|[v|e]| |[r|e]|[r|e]|[u|e]];
    cells h; try views r; cbn; rewrite <- ?app_assoc, ?app_nil_r;
    reflexivity.
Qed.

Lemma runWorld_hook evs h log :
  hook (runWorld evs {| hook := h; issued := log |}) = run evs h.
Proof.
  revert h log. induction evs as [|ev evs IH]; intros h log; [reflexivity|].
  cbn [runWorld run fold_left]. rewrite perform_log.
  apply IH.
Qed.

(** ** Cancel *)

Lemma previewOperation_step h sid command previewed :
  liveSession h sid ->
  liveSession (after (UseDxf.previewOperation command previewed) h) sid
  /\ operationHistory (after (UseDxf.previewOperation command previewed) h)
     = operationHistory h
  /\ callsOf (UseDxf.previewOperation command previewed) h
     = [Api.previewOperation sid (operation command) (params command)].
Proof.
  intro H. live H h.
  destruct previewed as [r|e]; try views r; repeat split.
Qed.

Lemma previews_keep_session previews : forall h log sid,
  liveSession h sid ->
  forallb isPreviewCall log = true ->
  let w := runWorld (previewEvents previews) {| hook := h; issued := log |} in
  liveSession (hook w) sid
  /\ operationHistory (hook w) = operationHistory h
  /\ forallb isPreviewCall (issued w) = true.
Proof.
  induction previews as [|[command previewed] previews IH];
    intros h log sid H Hlog; [repeat split; try apply H; exact Hlog|].
  change (runWorld (previewEvents ((command, previewed) :: previews))
            {| hook := h; issued := log |})
    with (runWorld (previewEvents previews)
            (snd (perform (PreviewOperation command previewed)
                    {| hook := h; issued := log |}))).
  rewrite perform_log.
  destruct (previewOperation_step h sid command previewed H) as (H' & Hh & Hc).
  cbn [perform]. rewrite Hc, <- Hh.
  apply IH; [exact H'|].
  rewrite forallb_app, Hlog. reflexivity.
Qed.

(** C2: with a live session [cancelOperation] clears the staged command
    and the notice, asks the server for the view of the session, shows the
    answer, or keeps the view and records no error when the request is
    rejected, and returns to [ready]; after any list of previews, which
    issue preview calls only and leave the history alone, the view after a
    cancel is the one the server answered. *)
Theorem cancelOperation_restores_view h sid :
  liveSession h sid ->
  (forall fetched,
      let h' := after (UseDxf.cancelOperation fetched) h in
      pendingCommand h' = None
      /\ error h' = None
      /\ state h' = St.ready
      /\ callsOf (UseDxf.cancelOperation fetched) h = [Api.getPreview sid None]
      /\ svg h' = match fetched with
                  | Resolved preview => svg_of preview
                  | Rejected _ => svg h
                  end)
  /\ (forall previews preview,
        let w := runWorld (previewEvents previews)
                          {| hook := h; issued := [] |} in
        hook w = runPreviews previews h
        /\ forallb isPreviewCall (issued w) = true
        /\ operationHistory (runPreviews previews h) = operationHistory h
        /\ svg (after (UseDxf.cancelOperation (Resolved preview))
                      (runPreviews previews h))
           = svg_of preview).
Proof.
  intro H. split.
  - intros [v|e]; live H h; repeat split.
  - intros previews preview w.
    assert (Hw : hook w = runPreviews previews h) by apply runWorld_hook.
    destruct (previews_keep_session previews h [] sid H eq_refl)
      as (H' & Hh & Hc).
    fold w in H', Hh, Hc. rewrite <- Hw.
    repeat split; try assumption.
    live H' (hook w). reflexivity.
Qed.

Lemma cancelOperation_restores_view_witness :
  liveSession Sample.opened "s1"
  /\ svg (after (UseDxf.cancelOperation (Resolved Sample.view))
                (runPreviews [(Sample.command, Resolved Sample.result);
                              (App.deletePartCommand "DF-01",
                               Rejected Sample.networkError)]
                             Sample.opened))
     = "<svg>committed</svg>".
Proof.
  assert (H : liveSession Sample.opened "s1") by (split; reflexivity).
  split; [exact H|].
  apply (proj2 (cancelOperation_restores_view Sample.opened "s1" H)
           [(Sample.command, Resolved Sample.result);
            (App.deletePartCommand "DF-01", Rejected Sample.networkError)]
           Sample.view).
Defined.

(** Without a live session [cancelOperation] does nothing. *)
Lemma cancelOperation_without_session fetched w :
  truthy (sessionIdRef (hook w)) = false ->
  UseDxf.cancelOperation fetched w = (Resolved tt, w).
Proof.
  destruct w as [h log]. cells h; cbn; intro Ht; try discriminate;
    reflexivity.
Qed.

(** ** The history *)

(** C5, as stated, fails: an undo that the server answers with
    [success = false] is a resolved call; its answer is appended to the
    history and announced as reverted.  The same holds for a commit. *)
Lemma unsuccessful_answer_is_logged :
  let refused := {| success := false; affected_count := {| toString := "0" |};
                    message := "nothing to undo"; preview_svg := None |} in
  let undone := after (UseDxf.undo (Resolved refused)) Sample.opened in
  let committed :=
    after (UseDxf.executeOperation (Resolved refused)) Sample.staged in
  length (operationHistory Sample.opened) = 0
  /\ length (operationHistory undone) = 1
  /\ operationHistory undone <> operationHistory Sample.opened
  /\ error undone = Some "元に戻しました"
  /\ state undone = St.ready
  /\ length (operationHistory Sample.staged) = 0
  /\ length (operationHistory committed) = 1
  /\ error committed = None.
Proof. repeat split; discriminate. Qed.

(** C5, amended: with a live session, a commit, an undo or a redo whose
    call resolves appends its result, whatever the [success] flag of the
    answer, which the hook does not read, so the history grows by one;
    when the call is rejected the history is unchanged, the message is
    recorded and the state returns to [ready]. *)
Theorem history_grows_by_one h sid :
  liveSession h sid ->
  (forall command result,
      pendingCommand h = Some command ->
      let h' := after (UseDxf.executeOperation (Resolved result)) h in
      operationHistory h' = operationHistory h ++ [result]
      /\ length (operationHistory h') = S (length (operationHistory h)))
  /\ (forall result,
        let h' := after (UseDxf.undo (Resolved result)) h in
        operationHistory h' = operationHistory h ++ [result]
        /\ length (operationHistory h') = S (length (operationHistory h)))
  /\ (forall result,
        let h' := after (UseDxf.redo (Resolved result)) h in
        operationHistory h' = operationHistory h ++ [result]
        /\ length (operationHistory h') = S (length (operationHistory h)))
  /\ (forall e,
        let h' := after (UseDxf.executeOperation (Rejected e)) h in
        operationHistory h' = operationHistory h
        /\ (pendingCommand h <> None ->
            error h' = Some (message_or e "操作の実行に失敗しました")
            /\ state h' = St.ready))
  /\ (forall e,
        let h' := after (UseDxf.undo (Rejected e)) h in
        operationHistory h' = operationHistory h
        /\ error h' = Some (message_or e "Undoに失敗しました")
        /\ state h' = St.ready)
  /\ (forall e,
        let h' := after (UseDxf.redo (Rejected e)) h in
        operationHistory h' = operationHistory h
        /\ error h' = Some (message_or e "Redoに失敗しました")
        /\ state h' = St.ready).
Proof.
  intro H. live H h.
  assert (Hlen : forall result : OperationResult,
             length (oh ++ [result]) = S (length oh))
    by (intro; rewrite length_app; cbn; lia).
  split; [|split; [|split; [|split; [|split]]]].
  - intros command result Hc. cbn in Hc. subst pc.
    views result; (split; [reflexivity|apply Hlen]).
  - intro result. split; [reflexivity|apply Hlen].
  - intro result. split; [reflexivity|apply Hlen].
  - intro e. destruct pc; (split; [reflexivity|]); intro Hn;
      [split; reflexivity|contradiction Hn; reflexivity].
  - intro e. repeat split.
  - intro e. repeat split.
Qed.

Lemma history_grows_by_one_witness :
  liveSession Sample.opened "s1"
  /\ length (operationHistory
               (after (UseDxf.undo (Rejected Sample.networkError))
                      Sample.opened)) = 0
  /\ error (after (UseDxf.undo (Rejected Sample.networkError)) Sample.opened)
     = Some "Network Error"
  /\ state (after (UseDxf.undo (Rejected Sample.networkError)) Sample.opened)
     = St.ready.
Proof.
  assert (H : liveSession Sample.opened "s1") by (split; reflexivity).
  split; [exact H|].
  destruct (history_grows_by_one Sample.opened "s1" H)
    as (_ & _ & _ & _ & Hundo & _).
  destruct (Hundo Sample.networkError) as (Hh & He & Hs).
  split; [rewrite Hh; reflexivity|]. split; [exact He|exact Hs].
Defined.

(** The hook does not read the [success] flag of a result: a call that
    resolves is logged whatever the flag says. *)
Lemma resolved_undo_is_logged h sid n msg view :
  liveSession h sid ->
  let result := {| success := false; affected_count := n; message := msg;
                   preview_svg := view |} in
  operationHistory (after (UseDxf.undo (Resolved result)) h)
  = operationHistory h ++ [result]
  /\ error (after (UseDxf.undo (Resolved result)) h) = Some "元に戻しました".
Proof. intro H. live H h. split; reflexivity. Qed.

(** Without a live session, or with nothing staged, the history is left
    alone and no call is issued. *)
Lemma no_session_no_call ev h :
  truthy (sessionIdRef h) = false ->
  match ev with
  | UploadFile _ _ _ | AnalyzePartsSettled _ => True
  | _ => callsOf (perform ev) h = []
         /\ operationHistory (after (perform ev) h) = match ev with
                                                      | ResetSession _ => []
                                                      | _ => operationHistory h
                                                      end
  end.
Proof.
  destruct ev as [f [i|e] [v|e']|[p|e]|t sel [[[|] [|c cs] m ai]|e] [r|e']
                 |c [r|e]|[r|e]|[v|e]| |[r|e]|[r|e]|[u|e]];
    cells h; cbn; intro Ht; try discriminate; try exact I; split; reflexivity.
Qed.

(** ** Upload *)

(** C7, as stated, fails: when the session is created and the first view
    cannot be fetched, the state is [error] but the ref already holds the
    session identifier and the document info is kept, and the guarded
    actions go through to the server. *)
Lemma partial_session_after_failed_view :
  let h := after (UseDxf.uploadFile Sample.file (Resolved Sample.info)
                    (Rejected Sample.networkError)) mount in
  state h = St.error
  /\ error h = Some "Network Error"
  /\ sessionIdRef h = Some "s1"
  /\ sessionIdRef h <> None
  /\ dxfInfo h = Some Sample.info
  /\ callsOf (UseDxf.undo (Resolved Sample.bare)) h = [Api.undo "s1"]
  /\ state (after (UseDxf.undo (Resolved Sample.bare)) h) = St.ready
  /\ state (after (UseDxf.previewOperation Sample.command
                     (Resolved Sample.result)) h) = St.previewing.
Proof. repeat split; discriminate. Qed.

(** C7, amended: when the creation of the session is rejected the state
    becomes [error], the message is recorded and the session ref and the
    document info are left as they were, so from the mounted hook no
    session exists; when the session is created and the fetch of the
    first view is rejected, the state becomes [error] with the message
    and the views are untouched, but the ref holds the new identifier and
    the document info is set, and the actions guarded by the ref reach
    the server. *)
Theorem failed_upload h file :
  (forall e fetched,
      let h' := after (UseDxf.uploadFile file (Rejected e) fetched) h in
      state h' = St.error
      /\ error h' = Some (message_or e "ファイルのアップロードに失敗しました")
      /\ sessionIdRef h' = sessionIdRef h
      /\ dxfInfo h' = dxfInfo h
      /\ callsOf (UseDxf.uploadFile file (Rejected e) fetched) h
         = [Api.uploadDxf file])
  /\ (forall info e,
        let h' := after (UseDxf.uploadFile file (Resolved info) (Rejected e))
                        h in
        state h' = St.error
        /\ error h' = Some (message_or e "ファイルのアップロードに失敗しました")
        /\ sessionIdRef h' = Some (session_id info)
        /\ dxfInfo h' = Some info
        /\ svg h' = svg h
        /\ originalSvg h' = originalSvg h
        /\ callsOf (UseDxf.uploadFile file (Resolved info) (Rejected e)) h
           = [Api.uploadDxf file; Api.getPreview (session_id info) None]
        /\ (truthy (Some (session_id info)) = true ->
            forall undone,
              callsOf (UseDxf.undo undone) h' = [Api.undo (session_id info)])).
Proof.
  split.
  - intros e fetched. destruct h. repeat split.
  - intros info e. destruct h. cbn zeta. repeat split.
    destruct info as [[|c s] fn ec ls cu]; intro Ht; [discriminate Ht|].
    intros [r|e']; reflexivity.
Qed.

Lemma failed_upload_witness :
  sessionIdRef (after (UseDxf.uploadFile Sample.file
                         (Rejected Sample.networkError)
                         (Resolved Sample.view)) mount) = None
  /\ truthy (Some (session_id Sample.info)) = true
  /\ callsOf (UseDxf.undo (Resolved Sample.bare))
       (after (UseDxf.uploadFile Sample.file (Resolved Sample.info)
                 (Rejected Sample.networkError)) mount)
     = [Api.undo "s1"].
Proof.
  destruct (failed_upload mount Sample.file) as [Hcreate Hview].
  split; [apply (Hcreate Sample.networkError (Resolved Sample.view))|].
  split; [reflexivity|].
  apply (Hview Sample.info Sample.networkError); reflexivity.
Defined.

(** When both calls resolve the session is open. *)
Lemma uploadFile_opens h file info preview :
  let h' := after (UseDxf.uploadFile file (Resolved info) (Resolved preview))
                  h in
  state h' = St.ready /\ error h' = None
  /\ sessionIdRef h' = Some (session_id info) /\ dxfInfo h' = Some info
  /\ svg h' = svg_of preview /\ originalSvg h' = svg_of preview
  /\ callsOf (UseDxf.uploadFile file (Resolved info) (Resolved preview)) h
     = [Api.uploadDxf file; Api.getPreview (session_id info) None;
        Api.analyzeParts (session_id info)].
Proof. destruct h. repeat split. Qed.

(** ** Reset *)

(** What [reset] writes: every cell but [originalSvg], whether or not the
    release of the remote session is rejected. *)
Lemma reset_clears_all_but_original_view h released :
  let h' := after (UseDxf.reset released) h in
  sessionIdRef h' = None /\ dxfInfo h' = None /\ parts h' = []
  /\ svg h' = "" /\ pendingCommand h' = None /\ operationHistory h' = []
  /\ error h' = None /\ state h' = St.initial
  /\ originalSvg h' = originalSvg h.
Proof. destruct released; cells h; repeat split. Qed.

(** C8: [reset] after an upload.  All the cells are cleared and the state
    is [initial], except that the original view is still the one of the
    closed session. *)
Theorem reset_keeps_original_view :
  let h := after (UseDxf.reset (Rejected Sample.networkError)) Sample.opened in
  originalSvg Sample.opened = "<svg>committed</svg>"
  /\ state h = St.initial /\ sessionIdRef h = None /\ dxfInfo h = None
  /\ parts h = [] /\ svg h = "" /\ pendingCommand h = None
  /\ operationHistory h = [] /\ error h = None
  /\ originalSvg h = "<svg>committed</svg>"
  /\ originalSvg h <> originalSvg mount.
Proof. repeat split; discriminate. Qed.

(** ** Results without a view *)

(** C10: when the call resolves with a result that has no [preview_svg],
    [undo] and [redo] set the view to the empty string, and
    [executeOperation] leaves the view as it is. *)
Theorem absent_view_undo_redo_execute h sid result :
  liveSession h sid ->
  preview_svg result = None ->
  svg (after (UseDxf.undo (Resolved result)) h) = ""
  /\ svg (after (UseDxf.redo (Resolved result)) h) = ""
  /\ (forall command,
        pendingCommand h = Some command ->
        svg (after (UseDxf.executeOperation (Resolved result)) h) = svg h
        /\ state (after (UseDxf.executeOperation (Resolved result)) h)
           = St.ready).
Proof.
  intros H Hv. live H h. destruct result as [ok n msg view].
  cbn in Hv. subst view. repeat split; cbn in *; subst pc; reflexivity.
Qed.

Lemma absent_view_undo_redo_execute_witness :
  liveSession Sample.staged "s1"
  /\ preview_svg Sample.bare = None
  /\ svg Sample.staged = "<svg>preview</svg>"
  /\ svg (after (UseDxf.undo (Resolved Sample.bare)) Sample.staged) = ""
  /\ svg (after (UseDxf.executeOperation (Resolved Sample.bare)) Sample.staged)
     = "<svg>preview</svg>".
Proof.
  assert (H : liveSession Sample.staged "s1") by (split; reflexivity).
  destruct (absent_view_undo_redo_execute Sample.staged "s1" Sample.bare H
              eq_refl) as (Hu & _ & Hx).
  split; [exact H|]. split; [reflexivity|]. split; [reflexivity|].
  split; [exact Hu|].
  exact (proj1 (Hx Sample.command eq_refl)).
Defined.

(** ** Selection and highlight *)

Section Highlight.

Variable index : list PartInfo.

Lemma includes_In (x : string) (s : list string) :
  existsb (String.eqb x) s = true <-> In x s.
Proof.
  rewrite existsb_exists. split.
  - intros (y & Hy & Heq). apply String.eqb_eq in Heq. subst y. exact Hy.
  - intro Hx. exists x. split; [exact Hx|apply String.eqb_refl].
Qed.

(** The pushes of the [forEach], whatever was pushed before. *)
Lemma pushes_flat_map (selectedParts pushed : list string) :
  fold_left
    (fun pushed partName =>
       match App.findPart index partName with
       | Some part =>
           (pushed ++ [text_handle part]) ++
           match linked_handles part with
           | Some linked => linked
           | None => []
           end
       | None => pushed
       end)
    selectedParts pushed
  = pushed ++ flat_map (pushedFor index) selectedParts.
Proof.
  revert pushed.
  induction selectedParts as [|partName rest IH]; intro pushed; cbn.
  - symmetry. apply app_nil_r.
  - rewrite IH. unfold pushedFor at 2, App.handlesOf.
    destruct (App.findPart index partName) as [part|]; cbn.
    + rewrite <- !app_assoc. reflexivity.
    + reflexivity.
Qed.

Lemma selectedHandles_flat_map (selectedParts : list string) :
  App.selectedHandles index selectedParts
  = flat_map (pushedFor index) selectedParts.
Proof. unfold App.selectedHandles. apply pushes_flat_map. Qed.

Lemma In_selectedHandles (selectedParts : list string) (id : string) :
  In id (App.selectedHandles index selectedParts)
  <-> exists partName part,
        In partName selectedParts
        /\ App.findPart index partName = Some part
        /\ In id (App.handlesOf part).
Proof.
  rewrite selectedHandles_flat_map, in_flat_map.
  unfold pushedFor. split.
  - intros (partName & Hsel & Hid).
    destruct (App.findPart index partName) as [part|] eqn:Hfind;
      [|contradiction].
    exists partName, part. auto.
  - intros (partName & part & Hsel & Hfind & Hid).
    exists partName. rewrite Hfind. auto.
Qed.

(** A set built by adding to a duplicate-free list is duplicate-free and
    holds what the list held and what was added. *)
Lemma adds_spec (xs : list string) : forall seen,
  NoDup seen ->
  NoDup (fold_left App.Set_add xs seen)
  /\ forall id, In id (fold_left App.Set_add xs seen)
                <-> In id seen \/ In id xs.
Proof.
  induction xs as [|x xs IH]; intros seen Hnd; cbn.
  - split; [exact Hnd|]. intro id. tauto.
  - unfold App.Set_add at 2 4.
    destruct (existsb (String.eqb x) seen) eqn:Hin.
    + apply includes_In in Hin.
      destruct (IH seen Hnd) as [Hnd' Hmem]. split; [exact Hnd'|].
      intro id. rewrite Hmem. split; [tauto|].
      intros [H|[H|H]]; subst; auto.
    + assert (Hout : ~ In x seen)
        by (intro Hx; apply includes_In in Hx; congruence).
      assert (Hnd1 : NoDup (seen ++ [x])).
      { apply NoDup_app; [exact Hnd|repeat constructor; intros []|].
        intros a Ha [Hx|[]]. subst a. contradiction. }
      destruct (IH (seen ++ [x]) Hnd1) as [Hnd' Hmem]. split; [exact Hnd'|].
      intro id. rewrite Hmem, in_app_iff. cbn. tauto.
Qed.

Lemma newSet_spec (xs : list string) :
  NoDup (App.newSet xs) /\ forall id, In id (App.newSet xs) <-> In id xs.
Proof.
  destruct (adds_spec xs [] (NoDup_nil _)) as [Hnd Hmem].
  split; [exact Hnd|]. intro id. rewrite (Hmem id). cbn. tauto.
Qed.

(** The highlight for any content of the hover cell. *)
Lemma highlight_of_cells (selectedParts hoverHandles : list string) :
  NoDup (App.highlightedHandles index selectedParts hoverHandles)
  /\ forall id,
       In id (App.highlightedHandles index selectedParts hoverHandles)
       <-> (exists partName part,
              In partName selectedParts
              /\ App.findPart index partName = Some part
              /\ In id (App.handlesOf part))
           \/ In id hoverHandles.
Proof.
  unfold App.highlightedHandles.
  destruct (newSet_spec
              (App.selectedHandles index selectedParts ++ hoverHandles))
    as [Hnd Hmem].
  split; [exact Hnd|]. intro id.
  rewrite Hmem, in_app_iff, In_selectedHandles. reflexivity.
Qed.


End Highlight.






(** An enter on a name the index does not hold writes nothing: the hover
    cell keeps what it held. *)
Lemma handleHoverPart_absent index partName hoverHandles :
  App.findPart index partName = None ->
  App.handleHoverPart index partName hoverHandles = hoverHandles.
Proof. intro Hfind. unfold App.handleHoverPart. rewrite Hfind. reflexivity. Qed.

(** An enter on a part of the index overwrites the hover cell. *)
Lemma handleHoverPart_found index partName part hoverHandles :
  App.findPart index partName = Some part ->
  App.handleHoverPart index partName hoverHandles = App.handlesOf part.
Proof.
  intro Hfind. unfold App.handleHoverPart, App.handlesOf. rewrite Hfind.
  destruct (linked_handles part); reflexivity.
Qed.

(** ** Toggling a selection *)

Lemma filter_absent (partName : string) (prev : list string) :
  ~ In partName prev ->
  filter (fun p => negb (String.eqb p partName)) prev = prev.
Proof.
  induction prev as [|p prev IH]; intro Hout; [reflexivity|]. cbn.
  destruct (String.eqb_spec p partName) as [Heq|Hne]; cbn.
  - exfalso. apply Hout. left. exact Heq.
  - rewrite IH; [reflexivity|]. intro Hin. apply Hout. right. exact Hin.
Qed.

Lemma In_filter_other (partName x : string) (prev : list string) :
  In x (filter (fun p => negb (String.eqb p partName)) prev)
  <-> In x prev /\ x <> partName.
Proof.
  rewrite filter_In.
  destruct (String.eqb_spec x partName) as [Heq|Hne]; cbn; split;
    intros [Hin H]; split; auto; congruence.
Qed.

(** A toggle of a name that is not selected, then a second toggle, gives
    back the very list. *)
Lemma toggle_twice_unselected (partName : string) (prev : list string) :
  ~ In partName prev ->
  App.handleTogglePartSelection partName
    (App.handleTogglePartSelection partName prev) = prev.
Proof.
  intro Hout. unfold App.handleTogglePartSelection.
  destruct (existsb (String.eqb partName) prev) eqn:Hin.
  - apply includes_In in Hin. contradiction.
  - assert (Hnow : existsb (String.eqb partName) (prev ++ [partName]) = true)
      by (apply includes_In, in_or_app; right; left; reflexivity).
    rewrite Hnow, filter_app, (filter_absent _ _ Hout). cbn.
    rewrite String.eqb_refl. cbn. apply app_nil_r.
Qed.

(** C9: two toggles of the same name in a row leave the membership of
    every name as it was. *)
Theorem toggle_twice_same_membership (partName : string) (prev : list string) :
  forall x,
    In x (App.handleTogglePartSelection partName
            (App.handleTogglePartSelection partName prev))
    <-> In x prev.
Proof.
  intro x.
  destruct (existsb (String.eqb partName) prev) eqn:Hin.
  - assert (Hsel : In partName prev) by (apply includes_In; exact Hin).
    unfold App.handleTogglePartSelection at 2. rewrite Hin.
    unfold App.handleTogglePartSelection.
    assert (Hgone : existsb (String.eqb partName)
              (filter (fun p => negb (String.eqb p partName)) prev) = false).
    { apply not_true_is_false. intro Hstill.
      apply includes_In, In_filter_other in Hstill. tauto. }
    rewrite Hgone, in_app_iff, In_filter_other. cbn.
    destruct (String.eqb_spec x partName) as [Heq|Hne].
    + subst x. tauto.
    + split; [intros [[H _]|[H|[]]]; [exact H|congruence]|tauto].
  - rewrite toggle_twice_unselected; [reflexivity|].
    intro Hsel. apply includes_In in Hsel. congruence.
Qed.

Example toggle_twice_reorders :
  App.handleTogglePartSelection "DF-01"
    (App.handleTogglePartSelection "DF-01" ["DF-01"; "DF-02"])
  = ["DF-02"; "DF-01"].
Proof. reflexivity. Qed.

(** * Further properties of the hook *)

(** Opens an event into its cases, one per way its calls settle. *)
Ltac outcomes ev :=
  destruct ev as [? [?|?] [?|?]|[?|?]|? ? [[[|] [|? ?] ? ?]|?] [?|?]
                 |? [?|?]|[?|?]|[?|?]| |[?|?]|[?|?]|[?|?]].

(** ** Failures stop at the action *)

(** Every action settles by returning: what a call throws is caught
    inside the action that awaited it, also by the unmount cleanup. *)
Theorem actions_never_reject (ev : Event) (w : World) (released : Settled unit) :
  fst (perform ev w) = Resolved tt
  /\ fst (UseDxf.cleanup released w) = Resolved tt.
Proof.
  destruct w as [h log]. split.
  - outcomes ev; cells h;
      repeat match goal with r : OperationResult |- _ => views r end;
      reflexivity.
  - destruct released as [[]|]; cells h; reflexivity.
Qed.

Lemma step_settledState h ev : settledState h -> settledState (step h ev).
Proof.
  unfold settledState.
  outcomes ev; cells h;
    repeat match goal with r : OperationResult |- _ => views r end;
    compute_hook; intros [H1 H2]; split; intro Hs;
    try discriminate Hs; try (apply H1; exact Hs); try (apply H2; exact Hs).
Qed.

(** Between two actions the state is never [loading] nor [executing]:
    every action that enters one of them leaves it before it settles,
    whatever the server answered. *)
Theorem never_left_busy h :
  Reachable h -> state h <> St.loading /\ state h <> St.executing.
Proof.
  induction 1 as [|h ev _ IH].
  - split; discriminate.
  - apply step_settledState. exact IH.
Qed.

Lemma never_left_busy_witness :
  Reachable (run [ExecuteOperation (Rejected Sample.networkError)] Sample.staged)
  /\ state (run [ExecuteOperation (Rejected Sample.networkError)] Sample.staged)
     <> St.executing.
Proof.
  assert (H : Reachable (run [ExecuteOperation (Rejected Sample.networkError)]
                           Sample.staged))
    by (apply reachable_run, reachable_staged).
  split; [exact H|].
  exact (proj2 (never_left_busy _ H)).
Defined.

Lemma step_infoMatchesSession h ev :
  infoMatchesSession h -> infoMatchesSession (step h ev).
Proof.
  unfold infoMatchesSession.
  outcomes ev; cells h;
    repeat match goal with r : OperationResult |- _ => views r end;
    compute_hook; intro H; try exact H; try reflexivity;
    try (destruct di; discriminate H).
Qed.

Lemma reachable_session_invariants h :
  Reachable h -> infoMatchesSession h.
Proof.
  induction 1 as [|h ev _ IH].
  - reflexivity.
  - apply step_infoMatchesSession. exact IH.
Qed.

(** The session ref and what is on screen agree between two actions:
    the document info is that of the session in the ref, and none is
    shown without a session; in [previewing] the ref holds a live
    session, and in [initial] it holds none. *)
Theorem session_matches_screen h :
  Reachable h ->
  match dxfInfo h with
  | Some info => sessionIdRef h = Some (session_id info)
  | None => sessionIdRef h = None
  end
  /\ (state h = St.previewing -> truthy (sessionIdRef h) = true)
  /\ (state h = St.initial -> sessionIdRef h = None /\ dxfInfo h = None).
Proof.
  intro Hr.
  pose proof (reachable_session_invariants h Hr) as Hm.
  destruct (reachable_invariants h Hr) as [Hp Hi].
  split; [exact Hm|]. split; [intro Hs; exact (proj2 (Hp Hs))|].
  intro Hs. destruct (Hi Hs) as [_ Hnone].
  split; [exact Hnone|].
  unfold infoMatchesSession in Hm. destruct (dxfInfo h); [congruence|reflexivity].
Qed.

Lemma session_matches_screen_witness :
  Reachable Sample.staged
  /\ dxfInfo Sample.staged = Some Sample.info
  /\ sessionIdRef Sample.staged = Some (session_id Sample.info).
Proof.
  split; [exact reachable_staged|]. split; [reflexivity|].
  exact (proj1 (session_matches_screen Sample.staged reachable_staged)).
Defined.

(** ** The session guard *)

(** Without a live session (the ref is [null] or empty) the guarded
    actions return at once: no call, no cell written; [interpretCommand]
    alone records its fixed message, and issues no call either. *)
Theorem guarded_actions_without_session (w : World) :
  truthy (sessionIdRef (hook w)) = false ->
  (forall command previewed,
      UseDxf.previewOperation command previewed w = (Resolved tt, w))
  /\ (forall committed, UseDxf.executeOperation committed w = (Resolved tt, w))
  /\ (forall fetched, UseDxf.cancelOperation fetched w = (Resolved tt, w))
  /\ UseDxf.downloadFile w = (Resolved tt, w)
  /\ (forall undone, UseDxf.undo undone w = (Resolved tt, w))
  /\ (forall redone, UseDxf.redo redone w = (Resolved tt, w))
  /\ (forall released, UseDxf.cleanup released w = (Resolved tt, w))
  /\ (forall text selectedParts interpreted previewed,
        UseDxf.interpretCommand text selectedParts interpreted previewed w
        = setError (Some "ファイルが読み込まれていません") w).
Proof.
  destruct w as [h log]. cells h; cbn [hook sessionIdRef truthy]; intro Ht;
    try discriminate Ht; repeat split.
Qed.

Lemma guarded_actions_without_session_witness :
  truthy (sessionIdRef (hook {| hook := mount; issued := [] |})) = false
  /\ UseDxf.undo (Resolved Sample.result) {| hook := mount; issued := [] |}
     = (Resolved tt, {| hook := mount; issued := [] |}).
Proof.
  split; [reflexivity|].
  apply (guarded_actions_without_session {| hook := mount; issued := [] |}
           eq_refl).
Defined.

(** Every call other than the upload itself names the session the ref
    holds when the action starts, and that session is live; the calls that
    follow the upload name the session it created. *)
Theorem calls_name_the_session (ev : Event) (h : Hook) :
  match ev with
  | UploadFile file uploaded fetched =>
      exists rest,
        callsOf (perform ev) h = Api.uploadDxf file :: rest
        /\ forall info, uploaded = Resolved info ->
             Forall (fun c => callSession c = Some (session_id info)) rest
  | _ =>
      Forall (fun c => callSession c = sessionIdRef h
                       /\ truthy (sessionIdRef h) = true)
             (callsOf (perform ev) h)
  end.
Proof.
  outcomes ev; cells h;
    repeat match goal with r : OperationResult |- _ => views r end;
    cbn;
    try (eexists; split; [reflexivity|]; intros info Hi;
         try discriminate Hi; inversion Hi; subst);
    repeat constructor.
Qed.

Lemma calls_name_the_session_witness :
  exists rest,
    callsOf (perform (UploadFile Sample.file (Resolved Sample.info)
                        (Resolved Sample.view))) mount
    = Api.uploadDxf Sample.file :: rest
    /\ Forall (fun c => callSession c = Some "s1") rest.
Proof.
  destruct (calls_name_the_session
              (UploadFile Sample.file (Resolved Sample.info)
                 (Resolved Sample.view)) mount) as (rest & Hcalls & Hall).
  exists rest. split; [exact Hcalls|].
  exact (Hall Sample.info eq_refl).
Defined.

(** ** Upload and part analysis *)

(** When the session is created and its first view fetched, the hook is
    [ready] with no error, the ref and the document info are those of
    the new session, and the current and the original view are the
    fetched one.  The three calls go out in order; the analysis is not
    awaited, so the parts, like the staged command and the history, are
    as before when the upload settles.  When the analysis settles later
    it writes the parts and nothing else, or nothing at all when it
    failed. *)
Theorem upload_opens_session h file info preview :
  let h' := after (UseDxf.uploadFile file (Resolved info) (Resolved preview))
                  h in
  (state h' = St.ready /\ error h' = None
   /\ sessionIdRef h' = Some (session_id info) /\ dxfInfo h' = Some info
   /\ svg h' = svg_of preview /\ originalSvg h' = svg_of preview
   /\ parts h' = parts h /\ pendingCommand h' = pendingCommand h
   /\ operationHistory h' = operationHistory h)
  /\ callsOf (UseDxf.uploadFile file (Resolved info) (Resolved preview)) h
     = [Api.uploadDxf file; Api.getPreview (session_id info) None;
        Api.analyzeParts (session_id info)]
  /\ (forall partsdata,
        after (UseDxf.analyzePartsSettled (Resolved partsdata)) h'
        = after (setParts partsdata) h'
        /\ callsOf (UseDxf.analyzePartsSettled (Resolved partsdata)) h' = [])
  /\ (forall e,
        after (UseDxf.analyzePartsSettled (Rejected e)) h' = h'
        /\ callsOf (UseDxf.analyzePartsSettled (Rejected e)) h' = []).
Proof. destruct h. repeat split. Qed.

(** ** Interpretation *)

(** The context [interpretCommand] sends: the layers and colours of the
    document info, or empty lists without one, the known parts and the
    selected names. *)
Lemma interpret_call h sid text selectedParts interpreted previewed :
  liveSession h sid ->
  exists rest,
    callsOf (UseDxf.interpretCommand text selectedParts interpreted previewed) h
    = Api.interpretCommand text sid
        {| Api.ctx_layers :=
             match dxfInfo h with Some i => layers i | None => [] end;
           Api.ctx_colors_used :=
             match dxfInfo h with Some i => colors_used i | None => [] end;
           Api.ctx_parts := parts h;
           Api.ctx_selected_parts := selectedParts |} :: rest.
Proof.
  intro H. live H h.
  destruct interpreted as [[[|] [|c cs] m ai]|e];
    destruct previewed as [r|e']; try views r; eexists; reflexivity.
Qed.

(** An instruction that is not turned into a command is dropped: when
    the answer reports failure or lists no command the state returns to
    [ready] with the answer's message, and when the call is rejected with
    the thrown message; in both cases the interpretation call is the only
    call, and the staged command, the views and the history are as
    before. *)
Theorem interpretation_rejected h sid text selectedParts interpreted previewed :
  liveSession h sid ->
  match interpreted with
  | Resolved result => ir_success result = false \/ commands result = []
  | Rejected _ => True
  end ->
  let act := UseDxf.interpretCommand text selectedParts interpreted previewed in
  state (after act h) = St.ready
  /\ error (after act h)
     = Some match interpreted with
            | Resolved result => ir_message result
            | Rejected e => message_or e "コマンドの解釈に失敗しました"
            end
  /\ length (callsOf act h) = 1
  /\ pendingCommand (after act h) = pendingCommand h
  /\ svg (after act h) = svg h
  /\ originalSvg (after act h) = originalSvg h
  /\ operationHistory (after act h) = operationHistory h
  /\ sessionIdRef (after act h) = sessionIdRef h.
Proof.
  intros H Hrej. live H h.
  destruct interpreted as [[[|] [|c cs] m ai]|e]; cbn in Hrej;
    try (destruct Hrej as [Hrej|Hrej]; discriminate Hrej);
    repeat split.
Qed.

Lemma interpretation_rejected_witness :
  liveSession Sample.staged "s1"
  /\ state (after (UseDxf.interpretCommand "do something" []
                     (Resolved {| ir_success := true; commands := [];
                                  ir_message := "no command";
                                  used_ai := false |})
                     (Resolved Sample.result)) Sample.staged) = St.ready.
Proof.
  assert (H : liveSession Sample.staged "s1") by (split; reflexivity).
  split; [exact H|].
  apply (interpretation_rejected Sample.staged "s1" "do something" []
           (Resolved {| ir_success := true; commands := [];
                        ir_message := "no command"; used_ai := false |})
           (Resolved Sample.result) H).
  right. reflexivity.
Defined.

(** An accepted interpretation is the preview of its first command: the
    cells end as if [previewOperation] had been called with that command
    and the same answer, the commands after the first are ignored, and
    the calls are the interpretation followed by that one preview. *)
Theorem interpretation_previews_first_command
    h sid text selectedParts command others msg ai previewed :
  liveSession h sid ->
  let interpreted := Resolved {| ir_success := true;
                                 commands := command :: others;
                                 ir_message := msg; used_ai := ai |} in
  let act := UseDxf.interpretCommand text selectedParts interpreted previewed in
  after act h = after (UseDxf.previewOperation command previewed) h
  /\ exists context,
       callsOf act h
       = [Api.interpretCommand text sid context;
          Api.previewOperation sid (operation command) (params command)].
Proof.
  intro H. live H h.
  destruct previewed as [r|e]; try views r;
    (split; [reflexivity|eexists; reflexivity]).
Qed.

Lemma interpretation_previews_first_command_witness :
  liveSession Sample.opened "s1"
  /\ after (UseDxf.interpretCommand "delete yellow lines" ["DF-01"]
              (Resolved {| ir_success := true;
                           commands := [Sample.command;
                                        App.deletePartCommand "DF-01"];
                           ir_message := ""; used_ai := true |})
              (Resolved Sample.result)) Sample.opened
     = Sample.staged.
Proof.
  assert (H : liveSession Sample.opened "s1") by (split; reflexivity).
  split; [exact H|].
  apply (interpretation_previews_first_command Sample.opened "s1"
           "delete yellow lines" ["DF-01"] Sample.command
           [App.deletePartCommand "DF-01"] "" true (Resolved Sample.result) H).
Defined.

(** ** Preview and commit *)

(** A preview that succeeds stages the command, enters [previewing],
    puts the count of affected entities in the notice, and shows the
    previewed view when the answer carries a non-empty one; it issues the
    one preview call and leaves the original view, the history, the parts
    and the session alone. *)
Theorem preview_stages_command h sid command result :
  liveSession h sid ->
  let h' := after (UseDxf.previewOperation command (Resolved result)) h in
  pendingCommand h' = Some command
  /\ state h' = St.previewing
  /\ error h' = Some (toString (affected_count result)
                      ++ "個のエンティティが影響を受けます")%string
  /\ svg h' = (if truthy (preview_svg result)
               then or_empty (preview_svg result) else svg h)
  /\ originalSvg h' = originalSvg h
  /\ operationHistory h' = operationHistory h
  /\ parts h' = parts h /\ dxfInfo h' = dxfInfo h
  /\ sessionIdRef h' = sessionIdRef h
  /\ callsOf (UseDxf.previewOperation command (Resolved result)) h
     = [Api.previewOperation sid (operation command) (params command)].
Proof. intro H. live H h. views result; repeat split. Qed.

Lemma preview_stages_command_witness :
  liveSession Sample.opened "s1"
  /\ svg (after (UseDxf.previewOperation Sample.command
                   (Resolved Sample.bare)) Sample.opened)
     = "<svg>committed</svg>".
Proof.
  assert (H : liveSession Sample.opened "s1") by (split; reflexivity).
  split; [exact H|].
  destruct (preview_stages_command Sample.opened "s1" Sample.command
              Sample.bare H) as (_ & _ & _ & Hsvg & _).
  exact Hsvg.
Defined.

(** What is committed is what was previewed last: after a preview of a
    command, however it settled, [executeOperation] issues exactly the
    commit of that command's operation and parameters for the live
    session, and a later preview replaces an earlier one. *)
Theorem commit_sends_last_preview h sid first second r1 r2 committed :
  liveSession h sid ->
  callsOf (UseDxf.executeOperation committed)
          (after (UseDxf.previewOperation first r1) h)
  = [Api.executeOperation sid (operation first) (params first)]
  /\ callsOf (UseDxf.executeOperation committed)
             (after (UseDxf.previewOperation second r2)
                    (after (UseDxf.previewOperation first r1) h))
     = [Api.executeOperation sid (operation second) (params second)].
Proof.
  intro H. live H h.
  destruct r1 as [r1|e1], r2 as [r2|e2], committed as [r|e];
    repeat match goal with r : OperationResult |- _ => views r end;
    split; reflexivity.
Qed.

Lemma commit_sends_last_preview_witness :
  liveSession Sample.opened "s1"
  /\ callsOf (UseDxf.executeOperation (Resolved Sample.result))
       (after (UseDxf.previewOperation (App.deletePartCommand "DF-01")
                 (Resolved Sample.bare))
              (after (UseDxf.previewOperation Sample.command
                        (Resolved Sample.result)) Sample.opened))
     = [Api.executeOperation "s1" "delete_part"
          [("part_name", JsString "DF-01")]].
Proof.
  assert (H : liveSession Sample.opened "s1") by (split; reflexivity).
  split; [exact H|].
  apply (commit_sends_last_preview Sample.opened "s1" Sample.command
           (App.deletePartCommand "DF-01") (Resolved Sample.result)
           (Resolved Sample.bare) (Resolved Sample.result) H).
Defined.

(** A commit that succeeds is sent once: it appends its result, shows
    its view when there is a non-empty one, clears the staged command and
    the notice and returns to [ready]; a second [executeOperation] then
    finds nothing staged, issues no call and writes no cell. *)
Theorem commit_consumes_command h sid command result :
  liveSession h sid ->
  pendingCommand h = Some command ->
  let h' := after (UseDxf.executeOperation (Resolved result)) h in
  pendingCommand h' = None /\ error h' = None /\ state h' = St.ready
  /\ operationHistory h' = operationHistory h ++ [result]
  /\ svg h' = (if truthy (preview_svg result)
               then or_empty (preview_svg result) else svg h)
  /\ callsOf (UseDxf.executeOperation (Resolved result)) h
     = [Api.executeOperation sid (operation command) (params command)]
  /\ (forall again,
        callsOf (UseDxf.executeOperation again) h' = []
        /\ after (UseDxf.executeOperation again) h' = h').
Proof.
  intros H Hc. live H h. cbn in Hc. subst pc.
  views result; repeat split.
Qed.

Lemma commit_consumes_command_witness :
  liveSession Sample.staged "s1"
  /\ pendingCommand Sample.staged = Some Sample.command
  /\ callsOf (UseDxf.executeOperation (Resolved Sample.result))
       (after (UseDxf.executeOperation (Resolved Sample.result)) Sample.staged)
     = [].
Proof.
  assert (H : liveSession Sample.staged "s1") by (split; reflexivity).
  split; [exact H|]. split; [reflexivity|].
  destruct (commit_consumes_command Sample.staged "s1" Sample.command
              Sample.result H eq_refl) as (_ & _ & _ & _ & _ & _ & Hagain).
  exact (proj1 (Hagain (Resolved Sample.result))).
Defined.

(** ** Which action writes which cell *)

(** The original view is written by an upload whose two calls resolve
    and by nothing else; the session ref is written by an upload whose
    creation call resolves and by [reset], and by nothing else. *)
Theorem writers_of_original_view_and_session (h : Hook) (ev : Event) :
  (originalSvg (step h ev) = originalSvg h
   \/ exists file info preview,
        ev = UploadFile file (Resolved info) (Resolved preview)
        /\ originalSvg (step h ev) = svg_of preview)
  /\ (sessionIdRef (step h ev) = sessionIdRef h
      \/ (exists file info fetched,
            ev = UploadFile file (Resolved info) fetched
            /\ sessionIdRef (step h ev) = Some (session_id info))
      \/ (exists released,
            ev = ResetSession released /\ sessionIdRef (step h ev) = None)).
Proof.
  outcomes ev; cells h;
    repeat match goal with r : OperationResult |- _ => views r end;
    split;
    first [ left; reflexivity
          | right; do 3 eexists; split; reflexivity
          | right; left; do 3 eexists; split; reflexivity
          | right; right; eexists; split; reflexivity ].
Qed.

(** ** The history is a log *)

Lemma step_appends h ev :
  match ev with ResetSession _ => False | _ => True end ->
  exists added,
    operationHistory (step h ev) = operationHistory h ++ added
    /\ length added <= 1
    /\ length added
       <= length (filter isMutatingCall (callsOf (perform ev) h)).
Proof.
  outcomes ev; intro Hev; try contradiction; cells h;
    repeat match goal with r : OperationResult |- _ => views r end;
    first [ exists []; cbn; rewrite ?app_nil_r; repeat split; lia
          | eexists [_]; cbn; repeat split; lia ].
Qed.

(** Short of a [reset] the history only grows at its end: over any run
    without a reset the old history is a prefix of the new one, with at
    most one entry added per action, and one action adds an entry only
    if it issued a commit, undo or redo call. *)
Theorem history_is_append_only (evs : list Event) (h : Hook) :
  Forall (fun ev => match ev with ResetSession _ => False | _ => True end) evs ->
  (exists added,
      operationHistory (run evs h) = operationHistory h ++ added
      /\ length added <= length evs)
  /\ (forall ev,
        In ev evs ->
        forall g, exists added,
          operationHistory (step g ev) = operationHistory g ++ added
          /\ length added
             <= length (filter isMutatingCall (callsOf (perform ev) g))).
Proof.
  intro Hall. split.
  - revert h. induction Hall as [|ev evs Hev _ IH]; intro h.
    + exists []. cbn. rewrite app_nil_r. split; [reflexivity|lia].
    + destruct (step_appends h ev Hev) as (a1 & H1 & L1 & _).
      destruct (IH (step h ev)) as (a2 & H2 & L2).
      exists (a1 ++ a2).
      change (run (ev :: evs) h) with (run evs (step h ev)).
      rewrite H2, H1, <- app_assoc, length_app. cbn [length].
      split; [reflexivity|lia].
  - intros ev Hin g. rewrite Forall_forall in Hall.
    destruct (step_appends g ev (Hall ev Hin)) as (a & Ha & _ & Lm).
    exists a. split; assumption.
Qed.

Lemma history_is_append_only_witness :
  exists added,
    operationHistory
      (run [ExecuteOperation (Resolved Sample.result);
            Undo (Rejected Sample.networkError);
            Redo (Resolved Sample.bare)] Sample.staged)
    = operationHistory Sample.staged ++ added
    /\ length added <= 3.
Proof.
  refine (proj1 (history_is_append_only
                   [ExecuteOperation (Resolved Sample.result);
                    Undo (Rejected Sample.networkError);
                    Redo (Resolved Sample.bare)] Sample.staged _)).
  repeat constructor.
Defined.

(** ** Which action can change the document *)

(** Only [executeOperation], [undo] and [redo] issue a call that changes
    the document on the server, and each at most one per action: no
    upload, interpretation, preview, cancel, download or reset issues a
    commit, undo or redo call, and nothing is sent twice. *)
Theorem mutating_calls (ev : Event) (h : Hook) :
  length (filter isMutatingCall (callsOf (perform ev) h)) <= 1
  /\ match ev with
     | ExecuteOperation _ | Undo _ | Redo _ => True
     | _ => filter isMutatingCall (callsOf (perform ev) h) = []
     end
  /\ NoDup (callsOf (perform ev) h).
Proof.
  outcomes ev; cells h;
    repeat match goal with r : OperationResult |- _ => views r end;
    cbn; repeat split; try lia;
    repeat (constructor; [cbn; intuition discriminate|]); constructor.
Qed.

(** ** Reset, unmount and download *)

(** [reset] releases a live session with one [deleteSession] call, and
    issues no call without one; afterwards the hook holds no session, so
    every action but an upload issues no call. *)
Theorem reset_releases_session (h : Hook) (released : Settled unit) :
  (forall sid, liveSession h sid ->
               callsOf (UseDxf.reset released) h = [Api.deleteSession sid])
  /\ (truthy (sessionIdRef h) = false ->
      callsOf (UseDxf.reset released) h = [])
  /\ (forall ev,
        match ev with
        | UploadFile _ _ _ => True
        | _ => callsOf (perform ev) (after (UseDxf.reset released) h) = []
        end).
Proof.
  split; [|split].
  - intros sid H. live H h. destruct released; reflexivity.
  - cells h; cbn; intro Ht; try discriminate Ht; reflexivity.
  - intro ev. destruct released; outcomes ev; cells h; try exact I;
      reflexivity.
Qed.

Lemma reset_releases_session_witness :
  liveSession Sample.staged "s1"
  /\ callsOf (UseDxf.reset (Rejected Sample.networkError)) Sample.staged
     = [Api.deleteSession "s1"].
Proof.
  assert (H : liveSession Sample.staged "s1") by (split; reflexivity).
  split; [exact H|].
  apply (proj1 (reset_releases_session Sample.staged
                  (Rejected Sample.networkError)) "s1" H).
Defined.

(** The unmount cleanup and the download write no cell: with a live
    session the cleanup issues the one [deleteSession] call, whose
    rejection is dropped, and the download asks for the URL of that
    session. *)
Theorem cleanup_and_download_write_nothing h sid released :
  liveSession h sid ->
  after (UseDxf.cleanup released) h = h
  /\ callsOf (UseDxf.cleanup released) h = [Api.deleteSession sid]
  /\ after UseDxf.downloadFile h = h
  /\ callsOf UseDxf.downloadFile h = [Api.getDownloadUrl sid].
Proof. intro H. live H h. destruct released; repeat split. Qed.

Lemma cleanup_and_download_write_nothing_witness :
  liveSession Sample.staged "s1"
  /\ after (UseDxf.cleanup (Rejected Sample.networkError)) Sample.staged
     = Sample.staged.
Proof.
  assert (H : liveSession Sample.staged "s1") by (split; reflexivity).
  split; [exact H|].
  exact (proj1 (cleanup_and_download_write_nothing Sample.staged "s1"
                  (Rejected Sample.networkError) H)).
Defined.

(** ** Undo and redo *)

(** [undo] and [redo] with a live session issue one call each; when it
    resolves the view becomes the answer's view, or the empty string, the
    notice is the fixed text, and the state is [ready].  Neither touches
    the staged command or the original view, so an undo during a preview
    leaves the command staged in [ready]. *)
Theorem undo_redo_effects h sid result :
  liveSession h sid ->
  let u := after (UseDxf.undo (Resolved result)) h in
  let r := after (UseDxf.redo (Resolved result)) h in
  (svg u = or_empty (preview_svg result)
   /\ error u = Some "元に戻しました" /\ state u = St.ready
   /\ pendingCommand u = pendingCommand h /\ originalSvg u = originalSvg h
   /\ callsOf (UseDxf.undo (Resolved result)) h = [Api.undo sid])
  /\ (svg r = or_empty (preview_svg result)
      /\ error r = Some "やり直しました" /\ state r = St.ready
      /\ pendingCommand r = pendingCommand h /\ originalSvg r = originalSvg h
      /\ callsOf (UseDxf.redo (Resolved result)) h = [Api.redo sid]).
Proof. intro H. live H h. repeat split. Qed.

Lemma undo_redo_effects_witness :
  liveSession Sample.staged "s1"
  /\ state (after (UseDxf.undo (Resolved Sample.result)) Sample.staged)
     = St.ready
  /\ pendingCommand (after (UseDxf.undo (Resolved Sample.result)) Sample.staged)
     = Some Sample.command.
Proof.
  assert (H : liveSession Sample.staged "s1") by (split; reflexivity).
  split; [exact H|].
  destruct (undo_redo_effects Sample.staged "s1" Sample.result H)
    as ((_ & _ & Hs & Hp & _) & _).
  split; [exact Hs|exact Hp].
Defined.

(** * The screen and the hook *)

(** ** The confirm button *)

(** Whenever the confirm and cancel buttons are on screen, a command is
    staged and the session is live, so that a click on confirm issues
    exactly the commit of the staged command. *)
Theorem confirm_button_commits h :
  Reachable h ->
  AppView.showsConfirm h = true ->
  exists sid command,
    liveSession h sid
    /\ pendingCommand h = Some command
    /\ forall committed,
         callsOf (UseDxf.executeOperation committed) h
         = [Api.executeOperation sid (operation command) (params command)].
Proof.
  intros Hr Hshow.
  assert (Hs : state h = St.previewing).
  { unfold AppView.showsConfirm in Hshow.
    apply andb_prop in Hshow. destruct Hshow as [_ Hp].
    destruct (St.eq_dec (state h) St.previewing); [assumption|discriminate]. }
  destruct (proj1 (reachable_invariants h Hr) Hs) as [Hp Ht].
  cells h; cbn in Hp, Ht; try discriminate Ht;
    try (exfalso; apply Hp; reflexivity).
  exists (String c0 sid0), o.
  split; [split; reflexivity|]. split; [reflexivity|].
  intros [r|e]; try views r; reflexivity.
Qed.

Lemma confirm_button_commits_witness :
  Reachable Sample.staged
  /\ AppView.showsConfirm Sample.staged = true
  /\ exists sid command,
       liveSession Sample.staged sid
       /\ pendingCommand Sample.staged = Some command
       /\ forall committed,
            callsOf (UseDxf.executeOperation committed) Sample.staged
            = [Api.executeOperation sid (operation command) (params command)].
Proof.
  split; [exact reachable_staged|]. split; [reflexivity|].
  exact (confirm_button_commits Sample.staged reachable_staged eq_refl).
Defined.

(** ** The header buttons *)

(** Whenever the header shows undo, redo, reset and download, every call
    these four issue names the session of the document info on screen. *)
Theorem header_actions_use_shown_session h :
  Reachable h ->
  AppView.showsHeaderActions h = true ->
  exists info,
    dxfInfo h = Some info
    /\ forall ev,
         match ev with
         | Undo _ | Redo _ | ResetSession _ | DownloadFile =>
             Forall (fun c => callSession c = Some (session_id info))
                    (callsOf (perform ev) h)
         | _ => True
         end.
Proof.
  intros Hr Hshow.
  pose proof (reachable_session_invariants h Hr) as Hm.
  unfold infoMatchesSession in Hm.
  unfold AppView.showsHeaderActions in Hshow.
  destruct (dxfInfo h) as [info|] eqn:Hinfo; [|discriminate Hshow].
  exists info. split; [reflexivity|].
  intro ev. destruct h as [st di ps sv osv pc oh er ref].
  cbn in Hm, Hinfo. subst ref di.
  destruct info as [[|c s] fn ec ls cu];
    outcomes ev; try exact I; repeat constructor.
Qed.

Lemma header_actions_use_shown_session_witness :
  Reachable Sample.staged
  /\ AppView.showsHeaderActions Sample.staged = true
  /\ exists info, dxfInfo Sample.staged = Some info.
Proof.
  split; [exact reachable_staged|]. split; [reflexivity|].
  destruct (header_actions_use_shown_session Sample.staged reachable_staged
              eq_refl) as (info & Hinfo & _).
  exists info. exact Hinfo.
Defined.

(** ** The command box *)

(** The handler of the command box and its send button agree, for any
    [trim]: the handler calls [onExecute] exactly when the button is
    enabled; it then hands over the text as typed, untrimmed, and clears
    the box, and otherwise keeps the text. *)
Theorem handleSubmit_matches_button
    (trim : string -> string) (text : string) (isLoading : bool)
    (disabled : option bool) :
  (CommandInput.sendDisabled trim text isLoading disabled = false
   <-> CommandInput.handleSubmit trim text isLoading disabled = (Some text, ""))
  /\ (CommandInput.sendDisabled trim text isLoading disabled = true
      <-> CommandInput.handleSubmit trim text isLoading disabled = (None, text)).
Proof.
  unfold CommandInput.sendDisabled, CommandInput.handleSubmit.
  destruct (truthy (Some (trim text))), isLoading, disabled as [[|]|]; cbn;
    split; split; intro H; try reflexivity; try discriminate H.
Qed.

(** From the screen an interpretation starts only in [ready] or [error]:
    the command box is not rendered in [initial], is disabled in
    [previewing], and is loading in [loading] and [executing]; when it
    starts, [interpretCommand] gets the text as typed and the current
    selection. *)
Theorem submitCommand_gate
    (trim : string -> string) (h : Hook) (text : string)
    (selectedParts : list string) :
  (AppView.submitCommand trim h text selectedParts
   = Some (text, selectedParts)
   <-> truthy (Some (trim text)) = true
       /\ (state h = St.ready \/ state h = St.error))
  /\ (AppView.submitCommand trim h text selectedParts
      = Some (text, selectedParts)
      \/ AppView.submitCommand trim h text selectedParts = None).
Proof.
  unfold AppView.submitCommand, AppView.showsEditor,
    AppView.commandInputIsLoading, AppView.commandInputDisabled,
    CommandInput.handleSubmit.
  destruct h as [st di ps sv osv pc oh er ref]. cbn [state].
  destruct (truthy (Some (trim text))), st; cbn; split;
    try (split; [intro H; try discriminate H; split; auto
                |intros [H1 [H2|H2]]; try discriminate H1;
                 try discriminate H2; reflexivity]);
    auto.
Qed.

(** * Further properties of the selection *)

(** ** Toggle *)

(** A toggle flips the membership of the toggled name and of no other:
    a selected name is removed, wherever and however often it occurs,
    an unselected one is added at the end. *)
Theorem toggle_flips_one_name (partName : string) (prev : list string) :
  (In partName (App.handleTogglePartSelection partName prev)
   <-> ~ In partName prev)
  /\ (forall other,
        other <> partName ->
        (In other (App.handleTogglePartSelection partName prev)
         <-> In other prev))
  /\ (~ In partName prev ->
      App.handleTogglePartSelection partName prev = prev ++ [partName]).
Proof.
  unfold App.handleTogglePartSelection.
  destruct (existsb (String.eqb partName) prev) eqn:Hin.
  - assert (Hsel : In partName prev) by (apply includes_In; exact Hin).
    split; [|split].
    + rewrite In_filter_other. tauto.
    + intros other Hne. rewrite In_filter_other. tauto.
    + intro Hout. contradiction.
  - assert (Hout : ~ In partName prev)
      by (intro Hsel; apply includes_In in Hsel; congruence).
    split; [|split].
    + rewrite in_app_iff. cbn. tauto.
    + intros other Hne. rewrite in_app_iff. cbn. split; [|tauto].
      intros [H|[H|[]]]; [exact H|congruence].
    + reflexivity.
Qed.

Lemma toggle_flips_one_name_witness :
  ~ In "DF-03" ["DF-01"; "DF-02"]
  /\ App.handleTogglePartSelection "DF-03" ["DF-01"; "DF-02"]
     = ["DF-01"; "DF-02"] ++ ["DF-03"].
Proof.
  assert (H : ~ In "DF-03" ["DF-01"; "DF-02"])
    by (intros [H|[H|[]]]; discriminate H).
  split; [exact H|].
  exact (proj2 (proj2 (toggle_flips_one_name "DF-03" ["DF-01"; "DF-02"])) H).
Defined.

(** A selection without repeated names stays without repeated names
    under a toggle, and its length changes by exactly one. *)
Theorem toggle_keeps_selection_a_set (partName : string) (prev : list string) :
  NoDup prev ->
  NoDup (App.handleTogglePartSelection partName prev)
  /\ (In partName prev ->
      S (length (App.handleTogglePartSelection partName prev)) = length prev)
  /\ (~ In partName prev ->
      length (App.handleTogglePartSelection partName prev) = S (length prev)).
Proof.
  intro Hnd. unfold App.handleTogglePartSelection.
  destruct (existsb (String.eqb partName) prev) eqn:Hin.
  - assert (Hsel : In partName prev) by (apply includes_In; exact Hin).
    split; [apply NoDup_filter; exact Hnd|]. split; [|intro; contradiction].
    intros _. clear Hin.
    induction Hnd as [|p prev Hp Hnd IH]; [contradiction|]. cbn.
    destruct (String.eqb_spec p partName) as [Heq|Hne]; cbn.
    + subst p. rewrite (filter_absent _ _ Hp). reflexivity.
    + destruct Hsel as [Heq|Hsel]; [contradiction|].
      rewrite (IH Hsel). reflexivity.
  - assert (Hout : ~ In partName prev)
      by (intro Hsel; apply includes_In in Hsel; congruence).
    split; [|split; [intro; contradiction|]].
    + apply NoDup_app; [exact Hnd|repeat constructor; intros []|].
      intros a Ha [Heq|[]]. subst a. contradiction.
    + intros _. rewrite length_app. cbn. lia.
Qed.

Lemma toggle_keeps_selection_a_set_witness :
  NoDup ["DF-01"; "DF-02"]
  /\ NoDup (App.handleTogglePartSelection "DF-01" ["DF-01"; "DF-02"]).
Proof.
  assert (H : NoDup ["DF-01"; "DF-02"]).
  { repeat constructor; cbn; intuition discriminate. }
  split; [exact H|].
  exact (proj1 (toggle_keeps_selection_a_set "DF-01" ["DF-01"; "DF-02"] H)).
Defined.

(** ** The set of the highlight effect *)

Lemma adds_fresh (xs seen : list string) :
  NoDup (seen ++ xs) -> fold_left App.Set_add xs seen = seen ++ xs.
Proof.
  revert seen. induction xs as [|x xs IH]; intros seen Hnd; cbn.
  - symmetry. apply app_nil_r.
  - assert (Hout : ~ In x seen).
    { intro Hx. apply NoDup_remove_2 in Hnd. apply Hnd.
      apply in_or_app. left. exact Hx. }
    unfold App.Set_add at 2.
    destruct (existsb (String.eqb x) seen) eqn:Hin;
      [apply includes_In in Hin; contradiction|].
    rewrite IH; rewrite <- app_assoc; [reflexivity|exact Hnd].
Qed.

(** The set keeps handles in the order of their first occurrence:
    handles that are already distinct come out as they went in, so the
    highlight is then the selected handles followed by the hovered ones,
    and building the set twice changes nothing. *)
Theorem newSet_keeps_order (xs : list string) :
  (NoDup xs -> App.newSet xs = xs)
  /\ App.newSet (App.newSet xs) = App.newSet xs
  /\ (forall index selectedParts hoverHandles,
        NoDup (App.selectedHandles index selectedParts ++ hoverHandles) ->
        App.highlightedHandles index selectedParts hoverHandles
        = App.selectedHandles index selectedParts ++ hoverHandles).
Proof.
  assert (Hfresh : forall ys, NoDup ys -> App.newSet ys = ys).
  { intros ys Hnd. unfold App.newSet. apply (adds_fresh ys []). exact Hnd. }
  split; [apply Hfresh|]. split.
  - apply Hfresh. apply newSet_spec.
  - intros index selectedParts hoverHandles Hnd. apply Hfresh. exact Hnd.
Qed.

Lemma newSet_keeps_order_witness :
  NoDup ["e2"; "e1"; "e3"] /\ App.newSet ["e2"; "e1"; "e3"] = ["e2"; "e1"; "e3"].
Proof.
  assert (H : NoDup ["e2"; "e1"; "e3"]).
  { repeat constructor; cbn; intuition discriminate. }
  split; [exact H|].
  exact (proj1 (newSet_keeps_order ["e2"; "e1"; "e3"]) H).
Defined.

(** ** Select all and clear *)

Lemma findPart_first index part :
  In part index ->
  exists first,
    App.findPart index (part_name part) = Some first
    /\ part_name first = part_name part /\ In first index.
Proof.
  unfold App.findPart. induction index as [|p index IH]; [intros []|].
  intro Hin. cbn.
  destruct (String.eqb_spec (part_name p) (part_name part)) as [Heq|Hne].
  - exists p. split; [reflexivity|]. split; [exact Heq|left; reflexivity].
  - destruct Hin as [Hp|Hin]; [subst p; contradiction Hne; reflexivity|].
    destruct (IH Hin) as (first & Hf & Hn & Hi).
    exists first. split; [exact Hf|]. split; [exact Hn|right; exact Hi].
Qed.

Lemma findPart_unique index part :
  NoDup (map part_name index) -> In part index ->
  App.findPart index (part_name part) = Some part.
Proof.
  unfold App.findPart. induction index as [|p index IH]; [intros _ []|].
  intros Hnd Hin. cbn in *. inversion Hnd as [|? ? Hout Hnd']; subst.
  destruct (String.eqb_spec (part_name p) (part_name part)) as [Heq|Hne].
  - destruct Hin as [Hp|Hin]; [subst p; reflexivity|].
    exfalso. apply Hout. rewrite Heq. apply in_map. exact Hin.
  - destruct Hin as [Hp|Hin]; [subst p; contradiction Hne; reflexivity|].
    apply IH; assumption.
Qed.

(** After "select all" every row is checked, and after "clear" none is;
    when the part names are distinct, the highlight after "select all"
    holds exactly the anchor and the linked handles of every part,
    and the hovered handles. *)
Theorem select_all_highlights_every_part
    (index : list PartInfo) (hoverHandles : list string) :
  (forall part,
      In part index ->
      EntityPanel.isSelected (App.handleSelectAll index) part = true
      /\ EntityPanel.isSelected App.handleClearSelection part = false)
  /\ (NoDup (map part_name index) ->
      forall id,
        In id (App.highlightedHandles index (App.handleSelectAll index)
                 hoverHandles)
        <-> (exists part, In part index /\ In id (App.handlesOf part))
            \/ In id hoverHandles).
Proof.
  split.
  - intros part Hin. split; [|reflexivity].
    unfold EntityPanel.isSelected, App.handleSelectAll.
    apply includes_In. apply in_map. exact Hin.
  - intros Hnd id.
    rewrite (proj2 (highlight_of_cells index (App.handleSelectAll index)
                      hoverHandles) id).
    unfold App.handleSelectAll. split.
    + intros [(partName & part & Hsel & Hfind & Hid)|Hh]; [left|right; exact Hh].
      exists part. split; [|exact Hid].
      apply in_map_iff in Hsel. destruct Hsel as (orig & Hname & Horig).
      rewrite <- Hname, (findPart_unique index orig Hnd Horig) in Hfind.
      inversion Hfind; subst. exact Horig.
    + intros [(part & Hin & Hid)|Hh]; [left|right; exact Hh].
      exists (part_name part), part.
      split; [apply in_map; exact Hin|].
      split; [apply findPart_unique; assumption|exact Hid].
Qed.

Lemma select_all_highlights_every_part_witness :
  NoDup (map part_name [Sample.df01; Sample.df02])
  /\ (In "e3" (App.highlightedHandles [Sample.df01; Sample.df02]
                 (App.handleSelectAll [Sample.df01; Sample.df02]) [])
      <-> (exists part,
              In part [Sample.df01; Sample.df02]
              /\ In "e3" (App.handlesOf part))
          \/ In "e3" []).
Proof.
  assert (H : NoDup (map part_name [Sample.df01; Sample.df02])).
  { repeat constructor; cbn; intuition discriminate. }
  split; [exact H|].
  exact (proj2 (select_all_highlights_every_part [Sample.df01; Sample.df02] [])
           H "e3").
Defined.

(** Two parts of the same name: the lookup by name finds the first, so
    the handles of the second are never highlighted by selecting. *)
Example same_name_shadows :
  let twin := {| part_name := "DF-01"; text_handle := "twin-anchor";
                 linked_count := 0; part_confidence := 1%Q;
                 linked_handles := None; center := None |} in
  App.highlightedHandles [Sample.df01; twin]
    (App.handleSelectAll [Sample.df01; twin]) []
  = ["DF-01-anchor"; "e1"; "e2"].
Proof. reflexivity. Qed.

(** ** Hover *)

(** Successive hovers never merge: an enter on a part of the index
    replaces the hover cell by the handles of that part, whatever an
    earlier enter left there, so the highlight is then the selection and
    that one part; an enter on a name the index does not hold leaves the
    cell as it was. *)
Theorem hover_overwrites (index : list PartInfo)
    (selectedParts : list string) (first second : string)
    (hoverHandles : list string) :
  (forall part,
      App.findPart index second = Some part ->
      let hover :=
        App.handleHoverPart index second
          (App.handleHoverPart index first hoverHandles) in
      hover = App.handlesOf part
      /\ forall id,
           In id (App.highlightedHandles index selectedParts hover)
           <-> (exists partName selected,
                  In partName selectedParts
                  /\ App.findPart index partName = Some selected
                  /\ In id (App.handlesOf selected))
               \/ In id (App.handlesOf part))
  /\ (App.findPart index second = None ->
      App.handleHoverPart index second hoverHandles = hoverHandles).
Proof.
  split.
  - intros part Hfind. cbn zeta.
    rewrite (handleHoverPart_found index second part _ Hfind).
    split; [reflexivity|]. intro id.
    apply (proj2 (highlight_of_cells index selectedParts (App.handlesOf part))).
  - apply handleHoverPart_absent.
Qed.

Lemma hover_overwrites_witness :
  App.findPart [Sample.df01; Sample.df02] "DF-02" = Some Sample.df02
  /\ App.handleHoverPart [Sample.df01; Sample.df02] "DF-02"
       (App.handleHoverPart [Sample.df01; Sample.df02] "DF-01" [])
     = ["DF-02-anchor"; "e3"].
Proof.
  split; [reflexivity|].
  exact (proj1 (proj1 (hover_overwrites [Sample.df01; Sample.df02] []
                         "DF-01" "DF-02" []) Sample.df02 eq_refl)).
Defined.

(** ** Deleting a part from the panel *)

(** The delete button of a row previews, and a confirm then commits, the
    operation [delete_part] with the name of that row as its only
    parameter. *)
Theorem delete_part_round h sid partName previewed committed :
  liveSession h sid ->
  callsOf (App.handleDeletePart partName previewed) h
  = [Api.previewOperation sid "delete_part"
       [("part_name", JsString partName)]]
  /\ pendingCommand (after (App.handleDeletePart partName previewed) h)
     = Some (App.deletePartCommand partName)
  /\ callsOf (UseDxf.executeOperation committed)
             (after (App.handleDeletePart partName previewed) h)
     = [Api.executeOperation sid "delete_part"
          [("part_name", JsString partName)]].
Proof.
  intro H. live H h.
  destruct previewed as [r|e], committed as [r'|e'];
    repeat match goal with r : OperationResult |- _ => views r end;
    repeat split.
Qed.

Lemma delete_part_round_witness :
  liveSession Sample.opened "s1"
  /\ callsOf (App.handleDeletePart "DF-01" (Resolved Sample.bare))
       Sample.opened
     = [Api.previewOperation "s1" "delete_part"
          [("part_name", JsString "DF-01")]].
Proof.
  assert (H : liveSession Sample.opened "s1") by (split; reflexivity).
  split; [exact H|].
  exact (proj1 (delete_part_round Sample.opened "s1" "DF-01"
                  (Resolved Sample.bare) (Resolved Sample.bare) H)).
Defined.

(** * The panels *)

(** ** The original pane *)



(** ** The colour of a layer *)

(** [getColorHex] answers gray for every index that is not a key of its
    table, that is below 1 or above 9, and always a [#] with six digits;
    the indicator of a layer is [#fff] exactly for colour 7, which the
    table's own entry for 7 therefore never paints. *)
Theorem layer_indicator_colour (layer : LayerInfo) (aci : Z) :
  ((aci < 1 \/ 9 < aci)%Z -> EntityPanel.getColorHex aci = "#808080")
  /\ String.length (EntityPanel.getColorHex aci) = 7
  /\ (EntityPanel.layerIndicator layer = "#fff" <-> layer_color layer = 7%Z)
  /\ EntityPanel.layerIndicator layer <> "#FFFFFF".
Proof.
  assert (Hcases : forall z : Z,
             (z < 1 \/ 9 < z)%Z \/ z = 1%Z \/ z = 2%Z \/ z = 3%Z \/ z = 4%Z
             \/ z = 5%Z \/ z = 6%Z \/ z = 7%Z \/ z = 8%Z \/ z = 9%Z) by (intro; lia).
  assert (Hout : forall z : Z,
             (z < 1 \/ 9 < z)%Z -> EntityPanel.getColorHex z = "#808080").
  { intros z Hz. unfold EntityPanel.getColorHex, EntityPanel.colorAt,
      EntityPanel.colors. cbn [find fst snd].
    repeat match goal with
           | |- context [Z.eqb ?k z] =>
               destruct (Z.eqb_spec k z); [lia|]
           end.
    reflexivity. }
  assert (Hlen : forall z : Z, String.length (EntityPanel.getColorHex z) = 7).
  { intro z. destruct (Hcases z) as [Hz|Hz]; [rewrite (Hout z Hz); reflexivity|].
    repeat (destruct Hz as [Hz|Hz]; [subst z; reflexivity|]).
    subst z. reflexivity. }
  split; [apply Hout|]. split; [apply Hlen|].
  unfold EntityPanel.layerIndicator.
  destruct (Z.eqb_spec (layer_color layer) 7) as [H7|H7].
  - split; [tauto|discriminate].
  - split.
    + split; [|contradiction]. intro Hw.
      pose proof (Hlen (layer_color layer)) as Hl. rewrite Hw in Hl.
      discriminate Hl.
    + destruct (Hcases (layer_color layer)) as [Hz|Hz];
        [rewrite (Hout _ Hz); discriminate|].
      repeat (destruct Hz as [Hz|Hz];
              [try contradiction; rewrite Hz; discriminate|]).
      rewrite Hz. discriminate.
Qed.

Lemma layer_indicator_colour_witness :
  (9 < 256)%Z /\ EntityPanel.getColorHex 256 = "#808080".
Proof.
  split; [reflexivity|].
  apply (proj1 (layer_indicator_colour
                  {| layer_name := "0"; layer_color := 7;
                     layer_color_name := "white"; layer_entity_count := 0 |}
                  256)).
  right. reflexivity.
Defined.

(** ** The suggestion chips *)

(** The chips are the rules of the server in their order followed by
    the two built-in examples, whatever was fetched: a click on a chip
    selects its pattern, a rule is drawn as a rule and labelled by its
    description, or by its pattern when the description is empty, and
    the two examples, drawn as AI commands, carry their own
    descriptions.  When the rules cannot be fetched there is no rule, so
    only the two examples are shown. *)
Theorem suggestion_chips (fetched : Settled (list SuggestedCommands.Rule)) :
  let rules := SuggestedCommands.fetchRules fetched in
  let chips := SuggestedCommands.allCommands rules in
  map SuggestedCommands.onClick chips
  = map SuggestedCommands.pattern rules
    ++ ["DF-01を削除"; "右上の部品を消して"]
  /\ map SuggestedCommands.chipClass chips
     = map (fun _ => "rule") rules ++ ["ai"; "ai"]
  /\ map SuggestedCommands.label chips
     = map (fun rule =>
              if truthy (Some (SuggestedCommands.description rule))
              then SuggestedCommands.description rule
              else SuggestedCommands.pattern rule) rules
       ++ [("部材 " ++ SuggestedCommands.dquote ++ "DF-01"
            ++ SuggestedCommands.dquote ++ " を削除")%string;
           "配置から推論して削除 (AI)"]
  /\ length chips = length rules + 2
  /\ (forall e, fetched = Rejected e -> rules = [])
  /\ (forall fetchedRules, fetched = Resolved fetchedRules ->
                           rules = fetchedRules).
Proof.
  cbn zeta. unfold SuggestedCommands.allCommands.
  rewrite !map_app, !map_map, length_app, !length_map.
  repeat split; try reflexivity.
  - intros e He. subst fetched. reflexivity.
  - intros fetchedRules He. subst fetched. reflexivity.
Qed.

Lemma suggestion_chips_witness :
  map SuggestedCommands.label
    (SuggestedCommands.allCommands
       (SuggestedCommands.fetchRules
          (Resolved [ {| SuggestedCommands.pattern := "枠線レイヤーを削除";
                         SuggestedCommands.description := "" |} ])))
  = ["枠線レイヤーを削除";
     ("部材 " ++ SuggestedCommands.dquote ++ "DF-01"
      ++ SuggestedCommands.dquote ++ " を削除")%string;
     "配置から推論して削除 (AI)"]
  /\ SuggestedCommands.fetchRules (Rejected Sample.networkError) = [].
Proof.
  split.
  - exact (proj1 (proj2 (proj2 (suggestion_chips
             (Resolved [ {| SuggestedCommands.pattern := "枠線レイヤーを削除";
                            SuggestedCommands.description := "" |} ]))))).
  - exact (proj1 (proj2 (proj2 (proj2 (proj2 (suggestion_chips
             (Rejected Sample.networkError)))))) Sample.networkError eq_refl).
Defined.
